(** * pyingest: the streaming ingestion engine of [src/pyingest.py]

    A shallow embedding of [LocalServer.load_file], [get_params],
    [ijson_decimal_as_float], [load_json], [load_csv], [pre_ingest],
    [post_ingest], [file_handle] and [main], followed by the properties
    of the specification that concern them and by further properties
    that the code shows.

    Conventions of the embedding.
    - Python objects are values of [pyval]; [x or y], [==], [>] and
      [str] are the functions [py_or], [int_eq], [int_gt] and [str_number].
    - A FileSpec is the dict that [yaml.load] produced for one entry of
      [files]: a finite map from keys to [pyval].
    - Everything a function does to the outside (printing, opening a
      session, opening a stream, running a query) is appended to a trace
      of [effect]s; a Python exception is the outcome [Raise].
    - Library code that the repository only calls is either a parameter of
      the section [Engine] ([urlparse], the openers behind [file_handle],
      the tokenizer of pandas, the lexer of ijson) or, where a property
      depends on it, a definition that follows the library's documented
      behaviour ([Decimal.__str__], [ijson.common.items], the row handling
      of [pandas.read_csv]).
    - Text is held in UTF-8, as the string literals of this file are: a
      character of a Python [str] is one to four bytes of a [string]. *)

From Stdlib Require Import ZArith String Ascii List Bool Lia.
From Stdlib Require Import Floats.SpecFloat.
From stdpp Require Import base option list gmap strings pretty.
Import ListNotations.

Open Scope string_scope.
Open Scope list_scope.
Open Scope Z_scope.

(* ===================================================================== *)
(** ** Python values                                                       *)
(* ===================================================================== *)

(** [decimal.Decimal]: sign, coefficient digits (no leading zero unless the
    coefficient is zero) and exponent; the value is
    [(-1)^sign * int * 10^exp].  Special values do not occur in JSON. *)
Record decimal := Decimal { dec_sign : bool; dec_int : string; dec_exp : Z }.

#[warnings="-register-all"]
Inductive pyval :=
| PyNone
| PyBool (b : bool)
| PyInt (n : Z)
| PyFloat (f : spec_float)
| PyDecimal (d : decimal)
| PyStr (s : string)
| PyList (l : list pyval)
| PyDict (kvs : list (string * pyval)).

(** Exceptions that the modelled code can raise or let through. *)
Inductive exn :=
| KeyError (k : string)
| TypeError
| ValueError
| AttributeError
| OverflowError
| TransportError
| JSONError.

Inductive res (A : Type) :=
| Ok (a : A)
| Raise (e : exn).
Arguments Ok {A} a.
Arguments Raise {A} e.

(** *** Strings *)

Fixpoint string_rev_app (s acc : string) : string :=
  match s with
  | String c s' => string_rev_app s' (String c acc)
  | EmptyString => acc
  end.

Definition string_rev (s : string) : string := string_rev_app s "".

Fixpoint starts_with (p s : string) : bool :=
  match p, s with
  | EmptyString, _ => true
  | String a p', String b s' => Ascii.eqb a b && starts_with p' s'
  | String _ _, EmptyString => false
  end.

(** [s.split(sep)] for a non-empty [sep]: left to right, without overlap.
    [skip] counts the characters of a separator still to be passed over,
    [cur] is the field read so far, reversed. *)
Fixpoint split_go (sep s : string) (skip : nat) (cur : string) : list string :=
  match s with
  | EmptyString => [string_rev cur]
  | String c s' =>
      match skip with
      | S n => split_go sep s' n cur
      | O =>
          if starts_with sep s
          then string_rev cur :: split_go sep s' (String.length sep - 1)%nat ""
          else split_go sep s' 0 (String c cur)
      end
  end.

Definition py_split (sep s : string) : list string := split_go sep s 0 "".

(** The characters for which [str.isspace] holds, each as its bytes:
    U+0009 to U+000D, U+001C to U+0020, U+0085, U+00A0, U+1680, U+2000 to
    U+200A, U+2028, U+2029, U+202F, U+205F and U+3000. *)
Definition whitespace : list string :=
  map (fun bytes => string_of_list_ascii (map ascii_of_nat bytes))
      [[9]; [10]; [11]; [12]; [13]; [28]; [29]; [30]; [31]; [32];
       [194; 133]; [194; 160]; [225; 154; 128];
       [226; 128; 128]; [226; 128; 129]; [226; 128; 130]; [226; 128; 131];
       [226; 128; 132]; [226; 128; 133]; [226; 128; 134]; [226; 128; 135];
       [226; 128; 136]; [226; 128; 137]; [226; 128; 138];
       [226; 128; 168]; [226; 128; 169]; [226; 128; 175];
       [226; 129; 159]; [227; 128; 128]]%nat.

(** The number of bytes of the character of [table] that [s] starts with,
    [0] when it starts with none. *)
Fixpoint space_width (table : list string) (s : string) : nat :=
  match table with
  | [] => 0
  | w :: table' =>
      if starts_with w s then String.length w else space_width table' s
  end.

(** [s] without the characters of [table] that it starts with; [skip]
    counts the bytes of such a character still to be passed over. *)
Fixpoint lstrip_go (table : list string) (s : string) (skip : nat) : string :=
  match s with
  | EmptyString => EmptyString
  | String _ s' =>
      match skip with
      | S n => lstrip_go table s' n
      | O =>
          match space_width table s with
          | O => s
          | S n => lstrip_go table s' n
          end
      end
  end.

(** [s.lstrip()] and [s.rstrip()]; the latter reads the bytes backwards. *)
Definition lstrip (s : string) : string := lstrip_go whitespace s 0.

Definition rstrip (s : string) : string :=
  string_rev (lstrip_go (map string_rev whitespace) (string_rev s) 0).

(** [s.strip()] *)
Definition py_strip (s : string) : string := rstrip (lstrip s).

Definition ends_with (p s : string) : bool :=
  starts_with (string_rev p) (string_rev s).

Fixpoint lstrip_char (c : ascii) (s : string) : string :=
  match s with
  | String a s' => if Ascii.eqb a c then lstrip_char c s' else s
  | EmptyString => EmptyString
  end.

Fixpoint replicate_char (n : nat) (c : ascii) : string :=
  match n with
  | O => ""
  | S n' => String c (replicate_char n' c)
  end.

Fixpoint string_take (n : nat) (s : string) : string :=
  match n, s with
  | S n', String c s' => String c (string_take n' s')
  | _, _ => ""
  end.

Fixpoint string_drop (n : nat) (s : string) : string :=
  match n, s with
  | S n', String _ s' => string_drop n' s'
  | _, _ => s
  end.

Definition slength (s : string) : Z := Z.of_nat (String.length s).

(** [s[1:]]: [s] without its first character, that is, without its first
    byte and the continuation bytes that follow it. *)
Fixpoint drop_continuation (s : string) : string :=
  match s with
  | String c s' =>
      let n := nat_of_ascii c in
      if ((128 <=? n) && (n <? 192))%nat then drop_continuation s' else s
  | EmptyString => EmptyString
  end.

Definition py_tail (s : string) : string :=
  match s with
  | String _ s' => drop_continuation s'
  | EmptyString => EmptyString
  end.

(** *** Truthiness, [or], comparisons *)

Definition truthy (v : pyval) : bool :=
  match v with
  | PyNone => false
  | PyBool b => b
  | PyInt n => negb (n =? 0)
  | PyFloat f => match f with S754_zero _ => false | _ => true end
  | PyDecimal d => negb (String.eqb (dec_int d) "0")
  | PyStr s => negb (String.eqb s "")
  | PyList l => match l with [] => false | _ => true end
  | PyDict kvs => match kvs with [] => false | _ => true end
  end.

(** [a or b] *)
Definition py_or (a b : pyval) : pyval := if truthy a then a else b.

Definition is_str (s : string) (v : pyval) : bool :=
  match v with PyStr t => String.eqb t s | _ => false end.

Definition is_none (v : pyval) : bool :=
  match v with PyNone => true | _ => false end.

(** Exact value of a number as a fraction [num / den], [den > 0];
    [None] for what is not a finite number. *)
Fixpoint digits_value (s : string) (acc : Z) : Z :=
  match s with
  | String c s' => digits_value s' (10 * acc + (Z.of_nat (nat_of_ascii c) - 48))
  | EmptyString => acc
  end.

Definition signed (neg : bool) (z : Z) : Z := if neg then - z else z.

Definition number_value (v : pyval) : option (Z * Z) :=
  match v with
  | PyBool b => Some (Z.b2z b, 1)
  | PyInt n => Some (n, 1)
  | PyFloat (S754_zero _) => Some (0, 1)
  | PyFloat (S754_finite s m e) =>
      if 0 <=? e then Some (signed s (Z.pos m * 2 ^ e), 1)
      else Some (signed s (Z.pos m), 2 ^ (- e))
  | PyDecimal d =>
      let c := digits_value (dec_int d) 0 in
      if 0 <=? dec_exp d then Some (signed (dec_sign d) (c * 10 ^ dec_exp d), 1)
      else Some (signed (dec_sign d) c, 10 ^ (- dec_exp d))
  | _ => None
  end.

(** [n == v] for an [int] [n]: numbers compare by value, nothing else is
    equal to an [int]. *)
Definition int_eq (n : Z) (v : pyval) : bool :=
  match number_value v with
  | Some (num, den) => n * den =? num
  | None => false
  end.

(** [n > v] for an [int] [n]: [TypeError] against what is not a number;
    against an infinity the sign decides, against a NaN it is [False]. *)
Definition int_gt (n : Z) (v : pyval) : res bool :=
  match v with
  | PyFloat (S754_infinity s) => Ok s
  | PyFloat S754_nan => Ok false
  | _ =>
      match number_value v with
      | Some (num, den) => Ok (num <? n * den)
      | None => Raise TypeError
      end
  end.

(** *** [str] of the numbers that ijson produces *)

Inductive number :=
| NInt (n : Z)
| NDecimal (d : decimal).

(** ["%+d" % n] *)
Definition format_plus_d (n : Z) : string :=
  if n <? 0 then pretty n else "+" +:+ pretty n.

(** [Decimal.__str__] (scientific notation, default context). *)
Definition decimal_str (d : decimal) : string :=
  let sign := if dec_sign d then "-" else "" in
  let int_ := dec_int d in
  let len := slength int_ in
  let leftdigits := dec_exp d + len in
  let dotplace :=
    if (dec_exp d <=? 0) && (-6 <? leftdigits) then leftdigits else 1 in
  let '(intpart, fracpart) :=
    if dotplace <=? 0 then
      ("0", "." +:+ replicate_char (Z.to_nat (- dotplace)) "0" +:+ int_)
    else if len <=? dotplace then
      (int_ +:+ replicate_char (Z.to_nat (dotplace - len)) "0", "")
    else
      (string_take (Z.to_nat dotplace) int_,
       "." +:+ string_drop (Z.to_nat dotplace) int_) in
  let exp :=
    if leftdigits =? dotplace then ""
    else "E" +:+ format_plus_d (leftdigits - dotplace) in
  sign +:+ intpart +:+ fracpart +:+ exp.

(** [str(value)] for the value of a ['number'] event. *)
Definition str_number (n : number) : string :=
  match n with
  | NInt z => pretty z
  | NDecimal d => decimal_str d
  end.

Definition number_pyval (n : number) : pyval :=
  match n with
  | NInt z => PyInt z
  | NDecimal d => PyDecimal d
  end.


(* ===================================================================== *)
(** ** Effects                                                             *)
(* ===================================================================== *)

(** What [print] and [print_progress] write; time stamps are left out. *)
Inductive message :=
| MsgSkipping (url : pyval)
| MsgProgress (msg value : string)
| MsgUnknownType (type : pyval)
| MsgUnsupportedCompression (compression : pyval)
| MsgChunk (url : pyval) (chunk_num : Z).

(** The raw source that [file_handle] hands to an opener: the body of an
    S3 object, a path, or the url itself when it is not a string. *)
Inductive body :=
| S3Body (bucket key : string)
| PathName (path : string)
| RawObject (url : pyval).

(** The three openers of [file_handle]. *)
Inductive handle :=
| GzipOpen (b : body)
| ZipFirstEntry (b : body)
| SmartOpen (b : body).

Inductive effect :=
| Print (m : message)
| SessionOpen
| SessionClose
| StreamOpen (h : handle)
| Run (cql : pyval) (rows : list pyval).

(** A computation: the effects it performed, and how it ended. *)
Definition M (A : Type) : Type := (list effect * res A)%type.

Definition ret {A} (a : A) : M A := ([], Ok a).

Definition raise {A} (e : exn) : M A := ([], Raise e).

Definition lift {A} (r : res A) : M A := ([], r).

Definition emit (e : effect) : M unit := ([e], Ok tt).

Definition bind {A B} (m : M A) (k : A -> M B) : M B :=
  match m with
  | (t, Ok a) => let '(t', r) := k a in (t ++ t', r)
  | (t, Raise e) => (t, Raise e)
  end.

Declare Scope ingest_scope.
Delimit Scope ingest_scope with ingest.
Notation "'let*' x ':=' m 'in' k" := (bind m (fun x => k))
  (at level 10, x name, m at level 100, k at level 200) : ingest_scope.
Notation "'let*' ' pat ':=' m 'in' k" := (bind m (fun x => let 'pat := x in k))
  (at level 10, pat pattern, m at level 100, k at level 200) : ingest_scope.
Notation "m ;; k" := (bind m (fun _ => k))
  (at level 100, k at level 200, right associativity) : ingest_scope.
Open Scope ingest_scope.

Definition trace {A} (m : M A) : list effect := fst m.
Definition outcome {A} (m : M A) : res A := snd m.

(** [with self._driver.session() as session: body]: the session is closed
    on the way out, whether [body] returns or raises. *)
Definition with_session {A} (body : M A) : M A :=
  let '(t, r) := body in (SessionOpen :: t ++ [SessionClose], r).

Definition is_run (e : effect) : bool :=
  match e with Run _ _ => true | _ => false end.

Definition is_stream_open (e : effect) : bool :=
  match e with StreamOpen _ => true | _ => false end.

Definition is_session (e : effect) : bool :=
  match e with SessionOpen | SessionClose => true | _ => false end.

(** The batches submitted to the store, in order. *)
Fixpoint batches (t : list effect) : list (list pyval) :=
  match t with
  | [] => []
  | Run _ rows :: t' => rows :: batches t'
  | _ :: t' => batches t'
  end.

(* ===================================================================== *)
(** ** ijson                                                               *)
(* ===================================================================== *)

(** An event of [ijson.parse] with the value it carries: a ['number'] is
    an [int] or a [Decimal], a ['string'] and a ['map_key'] a [str]. *)
Inductive token :=
| TNull
| TBoolean (b : bool)
| TNumber (n : number)
| TString (s : string)
| TMapKey (k : string)
| TStartMap
| TEndMap
| TStartArray
| TEndArray.

Definition event_name (t : token) : string :=
  match t with
  | TNull => "null"
  | TBoolean _ => "boolean"
  | TNumber _ => "number"
  | TString _ => "string"
  | TMapKey _ => "map_key"
  | TStartMap => "start_map"
  | TEndMap => "end_map"
  | TStartArray => "start_array"
  | TEndArray => "end_array"
  end.

Definition token_value (t : token) : pyval :=
  match t with
  | TBoolean b => PyBool b
  | TNumber n => number_pyval n
  | TString s => PyStr s
  | TMapKey k => PyStr k
  | _ => PyNone
  end.

(** The triple [(prefix, event, value)]. *)
Definition pyevent : Type := (string * string * pyval)%type.

(** A generator: what it yields, and the exception that ends it, if one
    does. *)
Definition stream (A : Type) : Type := (list A * option exn)%type.

(** [dict[k] = v] on an insertion-ordered dict. *)
Fixpoint dict_set (kvs : list (string * pyval)) (k : string) (v : pyval)
  : list (string * pyval) :=
  match kvs with
  | [] => [(k, v)]
  | (k', v') :: kvs' =>
      if String.eqb k' k then (k, v) :: kvs' else (k', v') :: dict_set kvs' k v
  end.

(** [ijson.common.ObjectBuilder].  An open container is kept with the key
    that was current when it was opened, which is the key under which its
    parent holds it. *)
Inductive container :=
| CMap (kvs : list (string * pyval))
| CArray (elems : list pyval).

Record builder := Builder {
  b_value : option pyval;
  b_key : option string;
  b_containers : list (container * option string)
}.

Definition new_builder : builder := Builder None None [].

Definition container_value (c : container) : pyval :=
  match c with
  | CMap kvs => PyDict kvs
  | CArray elems => PyList elems
  end.

(** [self.containers[-1](v)], with [k] the key in force. *)
Definition builder_put (b : builder) (k : option string) (v : pyval)
  : res builder :=
  match b_containers b with
  | [] => Ok (Builder (Some v) (b_key b) [])
  | (CMap kvs, k0) :: rest =>
      match k with
      | Some key => Ok (Builder (b_value b) (b_key b) ((CMap (dict_set kvs key v), k0) :: rest))
      | None => Raise AttributeError
      end
  | (CArray elems, k0) :: rest =>
      Ok (Builder (b_value b) (b_key b) ((CArray (elems ++ [v]), k0) :: rest))
  end.

(** The setter call of ['end_map'] and ['end_array']: the finished
    container reaches its parent. *)
Definition builder_pop (b : builder) : res builder :=
  match b_containers b with
  | (c, k0) :: rest =>
      builder_put (Builder (b_value b) (b_key b) rest) k0 (container_value c)
  | [] => Raise AttributeError
  end.

(** [ObjectBuilder.event(event, value)] *)
Definition builder_event (b : builder) (event : string) (value : pyval)
  : res builder :=
  if String.eqb event "map_key" then
    match value with
    | PyStr k => Ok (Builder (b_value b) (Some k) (b_containers b))
    | _ => Raise TypeError
    end
  else if String.eqb event "start_map" then
    Ok (Builder (b_value b) (b_key b) ((CMap [], b_key b) :: b_containers b))
  else if String.eqb event "start_array" then
    Ok (Builder (b_value b) (b_key b) ((CArray [], b_key b) :: b_containers b))
  else if String.eqb event "end_array" || String.eqb event "end_map" then
    builder_pop b
  else builder_put b (b_key b) value.

(** [builder.value] once the awaited end event is seen: the containers
    still open (one, when the events are well nested) are part of it. *)
Fixpoint builder_finish (n : nat) (b : builder) : res builder :=
  match n with
  | O => Ok b
  | S n' =>
      match builder_pop b with
      | Ok b' => builder_finish n' b'
      | Raise e => Raise e
      end
  end.

Definition builder_result (b : builder) : res pyval :=
  match builder_finish (length (b_containers b)) b with
  | Ok b' =>
      match b_value b' with
      | Some v => Ok v
      | None => Raise AttributeError
      end
  | Raise e => Raise e
  end.

(** [ijson.common.items(prefixed_events, prefix)].  [st] is [None] in the
    outer loop and holds the builder and the awaited end event in the
    inner one.  [stop] is the exception that ends the event generator. *)
Fixpoint items_go (prefix : string) (st : option (builder * string))
         (events : list pyevent) (stop : option exn) : stream pyval :=
  match events with
  | [] => ([], stop)
  | (current, event, value) :: events' =>
      match st with
      | None =>
          if String.eqb current prefix then
            if String.eqb event "start_map" || String.eqb event "start_array" then
              let end_event :=
                if String.eqb event "start_map" then "end_map" else "end_array" in
              match builder_event new_builder event value with
              | Ok b => items_go prefix (Some (b, end_event)) events' stop
              | Raise e => ([], Some e)
              end
            else
              let '(ys, r) := items_go prefix None events' stop in (value :: ys, r)
          else items_go prefix None events' stop
      | Some (b, end_event) =>
          if String.eqb current prefix && String.eqb event end_event then
            match builder_result b with
            | Ok v =>
                let '(ys, r) := items_go prefix None events' stop in (v :: ys, r)
            | Raise e => ([], Some e)
            end
          else
            match builder_event b event value with
            | Ok b' => items_go prefix (Some (b', end_event)) events' stop
            | Raise e => ([], Some e)
            end
      end
  end.

Definition ijson_items (events : stream pyevent) (prefix : string) : stream pyval :=
  items_go prefix None (fst events) (snd events).

(* ===================================================================== *)
(** ** pandas.read_csv, as [load_csv] calls it                             *)
(* ===================================================================== *)

(** The call is [read_csv(openfile, dtype=str, sep=..., error_bad_lines=False,
    index_col=False, skiprows=..., names=header, header=None, engine='c',
    chunksize=...)] followed by [fillna(value="")] and [to_dict('records')].
    The model works on the lines left in the stream, each line being one
    record of the tokenizer (a quoted field that spans lines is outside
    the model), and follows the C parser:
    - the arguments are checked before anything is read;
    - [skiprows=k] passes over the first [k] lines, blank ones included;
    - a blank line gives no row;
    - the parser gathers rows in a buffer until it holds [chunksize] of
      them, hands them over as a frame and starts again with an empty
      buffer;
    - [error_bad_lines=False] drops a line with too many fields, unless
      it is the first row of the buffer: that row is always kept;
    - a kept row is cut or padded to the width of [names]: fields beyond
      the last name are lost, missing cells are NaN;
    - a cell whose text is one of the default NA strings is NaN;
    - a reader that has no row at all yields one empty frame, since the
      first read always returns a frame carrying the column names;
    - an error of the tokenizer ends the iteration with that error; the
      rows of the buffer are lost. *)

(** The C parser of the installed pandas.  [fields_of sep line] is what
    its tokenizer makes of one line: its fields, [None] for a line it
    passes over as blank, or the error it raises.  The releases of pandas
    differ in two points that the call of [load_csv] meets.
    [first_row_widens] tells how many fields make a line too long: more
    than there are names or, where it holds, more than the larger of that
    number and the number of fields of the first row read.
    [line_end_separator] tells whether a separator that is the line end
    is let through to the tokenizer or refused with [ValueError]. *)
Record tokenizer := Tokenizer {
  fields_of : string -> string -> res (option (list string));
  first_row_widens : bool;
  line_end_separator : bool
}.

Definition default_na_values : list string :=
  [""; "#N/A"; "#N/A N/A"; "#NA"; "-1.#IND"; "-1.#QNAN"; "-NaN"; "-nan";
   "1.#IND"; "1.#QNAN"; "<NA>"; "N/A"; "NA"; "NULL"; "NaN"; "n/a"; "nan";
   "null"].

(** A cell of a frame with [dtype=str]: [None] is NaN. *)
Definition cell : Type := option string.

Definition parse_cell (s : string) : cell :=
  if existsb (String.eqb s) default_na_values then None else Some s.

(** The cells of one kept line, column by column. *)
Fixpoint frame_row (names fields : list string) : list (string * cell) :=
  match names with
  | [] => []
  | n :: names' =>
      match fields with
      | [] => (n, None) :: frame_row names' []
      | f :: fields' => (n, parse_cell f) :: frame_row names' fields'
      end
  end.

(** The number of fields that a line may have, fixed when the first row
    is read. *)
Definition expected_fields (tokenize : tokenizer) (names first : list string)
  : nat :=
  if first_row_widens tokenize then Nat.max (length first) (length names)
  else length names.

(** A line that [error_bad_lines=False] drops: it has more fields than
    expected and is not the first row of the buffer. *)
Definition bad_line (expected : nat) (buffered : list (list string))
           (fields : list string) : bool :=
  match buffered with
  | [] => false
  | _ => (expected <? length fields)%nat
  end.

(** Rows gathered into chunks of [c]; [cur] is the chunk being filled. *)
Fixpoint chunk_rows {A} (c : nat) (rows cur : list A) : list (list A) :=
  match rows with
  | [] => match cur with [] => [] | _ => [cur] end
  | r :: rows' =>
      let cur' := cur ++ [r] in
      if (length cur' =? c)%nat then cur' :: chunk_rows c rows' []
      else chunk_rows c rows' cur'
  end.

(** The rows that the parser hands over, buffer after buffer, and the
    error that ends them.  [expected] is [None] until the first row is
    read, [buffered] holds the rows of the buffer being filled. *)
Fixpoint tokenize_rows (tokenize : tokenizer) (sep : string)
         (names : list string) (c : nat) (expected : option nat)
         (lines : list string) (buffered : list (list string))
  : stream (list (list string)) :=
  match lines with
  | [] => (match buffered with [] => [] | _ => [buffered] end, None)
  | line :: lines' =>
      match fields_of tokenize sep line with
      | Raise e => ([], Some e)
      | Ok None => tokenize_rows tokenize sep names c expected lines' buffered
      | Ok (Some fields) =>
          let width := default (expected_fields tokenize names fields) expected in
          if bad_line width buffered fields then
            tokenize_rows tokenize sep names c (Some width) lines' buffered
          else
            let buffered' := buffered ++ [fields] in
            if (length buffered' =? c)%nat then
              let '(chunks, stop) :=
                tokenize_rows tokenize sep names c (Some width) lines' [] in
              (buffered' :: chunks, stop)
            else
              tokenize_rows tokenize sep names c (Some width) lines' buffered'
      end
  end.

(** What iterating over the reader yields. *)
Definition reader_chunks (tokenize : tokenizer) (sep : string)
           (names : list string) (c : nat) (lines : list string)
  : stream (list (list string)) :=
  match tokenize_rows tokenize sep names c None lines [] with
  | ([], None) => ([[]], None)
  | chunks => chunks
  end.

(** The error of the tokenizer on the first row, if any: the parser reads
    that row when it is created. *)
Fixpoint first_row_error (tokenize : tokenizer) (sep : string)
         (lines : list string) : option exn :=
  match lines with
  | [] => None
  | line :: lines' =>
      match fields_of tokenize sep line with
      | Raise e => Some e
      | Ok None => first_row_error tokenize sep lines'
      | Ok (Some _) => None
      end
  end.

(** [validate_integer("chunksize", v, 1)]: an [int] has to be at least 1;
    a [float] has to be integral and is taken for its value, whatever it
    is; nothing else is an integer, a [bool] neither. *)
Definition validate_chunksize (v : pyval) : res Z :=
  match v with
  | PyInt n => if n <? 1 then Raise ValueError else Ok n
  | PyFloat (S754_infinity _) => Raise OverflowError
  | PyFloat _ =>
      match number_value v with
      | Some (num, den) =>
          if num mod den =? 0 then Ok (num / den) else Raise ValueError
      | None => Raise ValueError
      end
  | _ => Raise ValueError
  end.

Fixpoint has_duplicates (l : list string) : bool :=
  match l with
  | [] => false
  | x :: l' => existsb (String.eqb x) l' || has_duplicates l'
  end.

(** The line end as a separator: [read_csv] refuses it unless the release
    is one that lets it through. *)
Definition line_end_refused (tokenize : tokenizer) (sep : string) : bool :=
  String.eqb sep (String "010" "") && negb (line_end_separator tokenize).

(** A separator that the C engine takes: one byte, or the two characters
    that ask for runs of white space. *)
Definition c_engine_separator (sep : string) : bool :=
  (String.length sep <=? 1)%nat || String.eqb sep "\s+".

(** A number that fits the 64-bit integers of the parser. *)
Definition int64 (n : Z) : res Z :=
  if (- 2 ^ 63 <=? n) && (n <? 2 ^ 63) then Ok n else Raise OverflowError.

(** A line number of [skiprows]: the parser takes what converts to an
    integer, a [float] by truncation. *)
Definition line_number (v : pyval) : res Z :=
  match v with
  | PyInt n => int64 n
  | PyBool b => Ok (Z.b2z b)
  | PyFloat S754_nan => Raise ValueError
  | PyFloat (S754_infinity _) => Raise OverflowError
  | PyFloat _ | PyDecimal _ =>
      match number_value v with
      | Some (num, den) => int64 (Z.quot num den)
      | None => Raise TypeError
      end
  | _ => Raise TypeError
  end.

Fixpoint line_numbers (l : list pyval) : res (list Z) :=
  match l with
  | [] => Ok []
  | v :: l' =>
      match line_number v with
      | Ok n =>
          match line_numbers l' with
          | Ok ns => Ok (n :: ns)
          | Raise e => Raise e
          end
      | Raise e => Raise e
      end
  end.

(** The lines whose number, counted from [i], is not in [ns]. *)
Fixpoint without_lines (ns : list Z) (i : nat) (lines : list string)
  : list string :=
  match lines with
  | [] => []
  | line :: lines' =>
      if existsb (Z.eqb (Z.of_nat i)) ns then without_lines ns (S i) lines'
      else line :: without_lines ns (S i) lines'
  end.

(** [skiprows]: a number of lines to pass over at the start (a negative
    one passes over nothing) or a list of line numbers; any other kind of
    value is refused. *)
Definition skip_rows (skiprows : pyval) (lines : list string)
  : res (list string) :=
  match skiprows with
  | PyInt k =>
      match int64 k with
      | Ok _ => Ok (drop (Z.to_nat k) lines)
      | Raise e => Raise e
      end
  | PyList l =>
      match line_numbers l with
      | Ok ns => Ok (without_lines ns 0 lines)
      | Raise e => Raise e
      end
  | _ => Raise TypeError
  end.

(** A frame: its rows, each one a list of named cells. *)
Definition frame : Type := list (list (string * cell)).

(** The frames of the reader, and the error that ends them.  The arguments
    are checked before anything is read: the separator must not be the
    line end, [chunksize] must be an integer, [names] must not repeat a
    name, the separator must be one that the C engine takes.  The first
    row is read when the parser is created.  A [chunksize] that
    [validate_chunksize] lets through and that is no chunk size is found
    at the first read: a negative one is refused there, one beyond 64
    bits too; with [0] the call reads the whole stream and returns a
    frame, not a reader, and the loop of [load_csv] fails at the first
    column name it is given for a frame. *)
Definition read_csv (tokenize : tokenizer)
           (lines : list string) (sep : string) (skiprows : pyval)
           (names : list string) (chunksize : pyval)
  : res (stream frame) :=
  if line_end_refused tokenize sep then Raise ValueError
  else
    match validate_chunksize chunksize with
    | Ok c =>
        if has_duplicates names then Raise ValueError
        else if negb (c_engine_separator sep) then Raise ValueError
        else
          match skip_rows skiprows lines with
          | Ok lines' =>
              if c =? 0 then
                Ok ([], Some (default AttributeError
                                (snd (tokenize_rows tokenize sep names 0 None
                                                    lines' []))))
              else if c <? 0 then
                Ok ([], Some (default ValueError
                                (first_row_error tokenize sep lines')))
              else
                match int64 c with
                | Ok _ =>
                    let '(chunks, stop) :=
                      reader_chunks tokenize sep names (Z.to_nat c) lines' in
                    Ok (map (map (frame_row names)) chunks, stop)
                | Raise e =>
                    Ok ([], Some (default e
                                    (first_row_error tokenize sep lines')))
                end
          | Raise e => Raise e
          end
    | Raise e => Raise e
    end.

(** [rows.fillna(value="").to_dict('records')] *)
Definition fillna_record (row : list (string * cell)) : pyval :=
  PyDict (map (fun '(n, c) => (n, PyStr (default "" c))) row).

Definition to_records (rows : frame) : list pyval :=
  map fillna_record rows.

(* ===================================================================== *)
(** ** pathlib                                                             *)
(* ===================================================================== *)

(** [PurePosixPath(url).name]: the last component that is neither empty
    nor ["."]. *)
Definition path_name (url : string) : string :=
  List.last
    (List.filter (fun x => negb (String.eqb x "") && negb (String.eqb x "."))
                 (py_split "/" url))
    "".

(** [PurePath.suffixes] *)
Definition suffixes (url : string) : list string :=
  let name := path_name url in
  if ends_with "." name then []
  else
    map (fun suffix => "." +:+ suffix)
        (List.tl (py_split "." (lstrip_char "." name))).

(* ===================================================================== *)
(** ** The engine                                                          *)
(* ===================================================================== *)

(** One entry of [config['files']]. *)
Abbreviation filespec := (gmap string pyval).

(** [file.get(k)] *)
Definition dict_get (file : filespec) (k : string) : pyval :=
  default PyNone (file !! k).

(** [file[k]] *)
Definition dict_item (file : filespec) (k : string) : M pyval :=
  match file !! k with
  | Some v => ret v
  | None => raise (KeyError k)
  end.

(** [a + b] where one operand is a string literal of the code: the other
    one has to be a string. *)
Definition str_add (a b : pyval) : M pyval :=
  match a, b with
  | PyStr x, PyStr y => ret (PyStr (x +:+ y))
  | _, _ => raise TypeError
  end.

(** [float(n)] for an [int] [n]: the nearest double, [OverflowError] when
    there is none. *)
Definition float_of_int (n : Z) : res spec_float :=
  match binary_normalize 53 1024 n 0 false with
  | S754_infinity _ => Raise OverflowError
  | f => Ok f
  end.

Definition as_int (v : pyval) : option Z :=
  match v with
  | PyInt n => Some n
  | PyBool b => Some (Z.b2z b)
  | _ => None
  end.

Definition as_float (v : pyval) : option (res spec_float) :=
  match v with
  | PyFloat f => Some (Ok f)
  | _ => option_map float_of_int (as_int v)
  end.

Definition is_float (v : pyval) : bool :=
  match v with PyFloat _ => true | _ => false end.

(** [a + b] for two values of a configuration, as [yaml.load] makes them:
    strings and lists are concatenated, [int]s and [bool]s are added
    exactly, a [float] is added to a number in double precision; anything
    else is a [TypeError]. *)
Definition py_add (a b : pyval) : M pyval :=
  match a, b with
  | PyStr x, PyStr y => ret (PyStr (x +:+ y))
  | PyList x, PyList y => ret (PyList (x ++ y))
  | _, _ =>
      match as_int a, as_int b with
      | Some x, Some y => ret (PyInt (x + y))
      | _, _ =>
          if is_float a || is_float b then
            match as_float a, as_float b with
            | Some fa, Some fb =>
                let* x := lift fa in
                let* y := lift fb in
                ret (PyFloat (SFadd 53 1024 x y))
            | _, _ => raise TypeError
            end
          else raise TypeError
      end
  end.

Definition as_str (v : pyval) : M string :=
  match v with
  | PyStr s => ret s
  | _ => raise TypeError
  end.

Definition supported_compression_formats : list string :=
  ["gzip"; "zip"; "none"].

(** [v in supported_compression_formats] *)
Definition supported_compression (v : pyval) : bool :=
  existsb (fun s => is_str s v) supported_compression_formats.

(** The dict that [get_params] builds. *)
Record params := Params {
  p_skip_records : pyval;
  p_compression : pyval;
  p_url : pyval;
  p_cql : pyval;
  p_chunk_size : pyval;
  p_field_sep : pyval
}.

Definition print_progress (msg value : string) : M unit :=
  emit (Print (MsgProgress msg value)).

(** [LocalServer.get_params] *)
Definition get_params (file : filespec) : M params :=
  let skip_records := py_or (dict_get file "skip_records") (PyInt 0) in
  let compression := py_or (dict_get file "compression") (PyStr "none") in
  (if negb (supported_compression compression)
   then emit (Print (MsgUnsupportedCompression compression))
   else ret tt) ;;
  let* url := dict_item file "url" in
  let* cql := dict_item file "cql" in
  let chunk_size := py_or (dict_get file "chunk_size") (PyInt 1000) in
  let field_sep := py_or (dict_get file "field_separator") (PyStr ",") in
  ret (Params skip_records compression url cql chunk_size field_sep).

(** [LocalServer.ijson_decimal_as_float]: the value of a ['number'] event
    is replaced by [str(value)], every other event goes through. *)
Definition ijson_decimal_as_float (events : stream (string * token))
  : stream pyevent :=
  (map (fun '(prefix, tok) =>
          match tok with
          | TNumber n => (prefix, event_name tok, PyStr (str_number n))
          | _ => (prefix, event_name tok, token_value tok)
          end)
       (fst events),
   snd events).

(** The [while not halt] loop of [load_json] over the generator [items]
    (what it still yields, and [stop], the exception that ends it, if
    any), with the state [rec_num], [chunk_num], [rows]; the result is
    [chunk_num] and [rows] on leaving the loop. *)
Fixpoint json_loop (p : params) (items : list pyval) (stop : option exn)
         (rec_num chunk_num : Z) (rows : list pyval) : M (Z * list pyval) :=
  match items with
  | [] =>
      match stop with
      | Some e => raise e
      | None => ret (chunk_num, rows)
      end
  | row :: items' =>
      if is_none row then ret (chunk_num, rows)
      else
        let rec_num := rec_num + 1 in
        let* keep := lift (int_gt rec_num (p_skip_records p)) in
        if keep : bool then
          let rows := rows ++ [row] in
          if int_eq (Z.of_nat (length rows)) (p_chunk_size p) then
            emit (Print (MsgChunk (p_url p) chunk_num)) ;;
            emit (Run (p_cql p) rows) ;;
            json_loop p items' stop rec_num (chunk_num + 1) []
          else json_loop p items' stop rec_num chunk_num rows
        else json_loop p items' stop rec_num chunk_num rows
  end.

(** [bytes.decode('UTF-8')] and [str] of a text line: the text itself. *)
Definition decode_utf8 (line : string) : string := line.
Definition str_text (line : string) : string := line.

(** The [for i, rows in enumerate(row_chunks)] loop of [load_csv];
    [stop] is the error that ends the reader, if any. *)
Fixpoint csv_loop (p : params) (row_chunks : list frame) (stop : option exn)
  : M unit :=
  match row_chunks with
  | [] =>
      match stop with
      | Some e => raise e
      | None => ret tt
      end
  | rows :: row_chunks' =>
      emit (Run (p_cql p) (to_records rows)) ;;
      csv_loop p row_chunks' stop
  end.

(** [url], [netloc] and [path] of [urllib.parse.urlparse]. *)
Record parsed_url := ParsedUrl {
  scheme : string;
  netloc : string;
  path : string
}.

Section Engine.

(** The world outside the repository. *)
Variable urlparse : string -> parsed_url.
(** The lines that an opener delivers, [None] when it fails. *)
Variable fetch : handle -> option (list string).
(** The C tokenizer of pandas. *)
Variable tokenize : tokenizer.
(** [ijson.parse] on a stream: the events, and the exception that ends
    them when the text is malformed. *)
Variable ijson_parse : list string -> stream (string * token).

(** An opener at work: the lines of the stream, or the opener's error. *)
Definition open_stream (h : handle) (e : exn) : M (list string) :=
  emit (StreamOpen h) ;;
  match fetch h with
  | Some lines => ret lines
  | None => raise e
  end.

(** [file_handle(url, compression)].  [urlparse] takes an object that is
    not a string for bytes: it decodes it when it is truthy, which raises
    [AttributeError], and parses the empty string when it is falsy; then
    no scheme is found and the object itself goes to the opener.
    [gzip.open] refuses it with [TypeError], the zip branch calls its
    [read], which it has not, and [smart_open] refuses it with
    [TypeError], unless it is an [int] that the opener takes for a file
    descriptor and can read from: that is left to the world. *)
Definition file_handle (url compression : pyval) : M (list string) :=
  match url with
  | PyStr u =>
      let parsed := urlparse u in
      let path :=
        if String.eqb (scheme parsed) "s3" then
          S3Body (netloc parsed) (py_tail (path parsed))
        else if String.eqb (scheme parsed) "file" then PathName (path parsed)
        else PathName u in
      let h :=
        if is_str "gzip" compression then GzipOpen path
        else if is_str "zip" compression then ZipFirstEntry path
        else SmartOpen path in
      open_stream h TransportError
  | _ =>
      if truthy url then raise AttributeError
      else if is_str "gzip" compression then
        emit (StreamOpen (GzipOpen (RawObject url))) ;; raise TypeError
      else if is_str "zip" compression then raise AttributeError
      else
        match as_int url with
        | Some _ => open_stream (SmartOpen (RawObject url)) TypeError
        | None =>
            emit (StreamOpen (SmartOpen (RawObject url))) ;; raise TypeError
        end
  end.

(** [LocalServer.load_json] *)
Definition load_json (file : filespec) : M unit :=
  with_session (
    let* p := get_params file in
    let* openfile := file_handle (p_url p) (p_compression p) in
    let items :=
      ijson_items (ijson_decimal_as_float (ijson_parse openfile)) "item" in
    let* '(chunk_num, rows) := json_loop p (fst items) (snd items) 0 0 [] in
    if (0 <? length rows)%nat then
      emit (Print (MsgChunk (p_url p) chunk_num)) ;;
      emit (Run (p_cql p) rows)
    else ret tt).

(** [LocalServer.load_csv].  The first line is read off the stream, as
    bytes to decode for a zip entry and as text otherwise; either way
    it is the text of the line. *)
Definition load_csv (file : filespec) : M unit :=
  with_session (
    let* p := get_params file in
    let* openfile := file_handle (p_url p) (p_compression p) in
    let line := List.hd "" openfile in
    let rest := List.tl openfile in
    let header :=
      if is_str "zip" (p_compression p) then decode_utf8 line
      else str_text line in
    let* sep := as_str (p_field_sep p) in
    let header := py_split sep (py_strip header) in
    let* row_chunks :=
      lift (read_csv tokenize rest sep (p_skip_records p) header
                     (p_chunk_size p)) in
    csv_loop p (fst row_chunks) (snd row_chunks)).

Section Dispatch.

(** The two readers as [load_file] reaches them through [self]. *)
Variables self_load_csv self_load_json : filespec -> M unit.

(** [LocalServer.load_file] *)
Definition load_file (file : filespec) : M unit :=
  let skip := py_or (dict_get file "skip_file") (PyBool false) in
  if truthy skip then
    let* url := dict_item file "url" in
    emit (Print (MsgSkipping url))
  else
    let* url := dict_item file "url" in
    let* quoted := str_add (PyStr "'") url in
    let* quoted := str_add quoted (PyStr "'") in
    let* shown := as_str quoted in
    print_progress "Reading file:" shown ;;
    let type := py_or (dict_get file "type") (PyStr "NA") in
    (if negb (is_str "NA" type) then
       if is_str "csv" type then self_load_csv file
       else if is_str "json" type then self_load_json file
       else emit (Print (MsgUnknownType type))
     else
       let* u := as_str url in
       let file_suffixes := suffixes u in
       if existsb (String.eqb ".csv") file_suffixes then self_load_csv file
       else if existsb (String.eqb ".json") file_suffixes then self_load_json file
       else self_load_csv file) ;;
    print_progress "Completed file:" shown.

End Dispatch.

(** [load_file] of a [LocalServer]. *)
Definition server_load_file : filespec -> M unit :=
  load_file load_csv load_json.

(** The [for file in file_list] loop of [main]; [basepath] is
    [config['basepath']] when the configuration has the key. *)
Fixpoint main_files (basepath : option pyval) (file_list : list filespec)
  : M unit :=
  match file_list with
  | [] => ret tt
  | file :: file_list' =>
      let* file :=
        match basepath with
        | Some base =>
            let* url := dict_item file "url" in
            let* url' := py_add base url in
            ret (<["url" := url']> file)
        | None => ret file
        end in
      server_load_file file ;;
      main_files basepath file_list'
  end.

End Engine.

(* ===================================================================== *)
(** ** The entry point                                                     *)
(* ===================================================================== *)

(** What [main] does to the outside: the effects of the engine, and those
    of the driver, of [pre_ingest] and [post_ingest] and of the progress
    lines whose value is any object. *)
Inductive run_effect :=
| Engine (e : effect)
| DriverOpen (uri user password : pyval)
| DriverClose
| Progress (msg : string) (value : pyval)
| Statement (statement : pyval).

Definition P (A : Type) : Type := (list run_effect * res A)%type.

Definition pret {A} (a : A) : P A := ([], Ok a).

Definition praise {A} (e : exn) : P A := ([], Raise e).

Definition pemit (e : run_effect) : P unit := ([e], Ok tt).

Definition pbind {A B} (m : P A) (k : A -> P B) : P B :=
  match m with
  | (t, Ok a) => let '(t', r) := k a in (t ++ t', r)
  | (t, Raise e) => (t, Raise e)
  end.

(** A computation of the engine as a part of a run. *)
Definition engine {A} (m : M A) : P A := (map Engine (fst m), snd m).

Declare Scope run_scope.
Delimit Scope run_scope with run.
Notation "'let*' x ':=' m 'in' k" := (pbind m (fun x => k))
  (at level 10, x name, m at level 100, k at level 200) : run_scope.
Notation "m ;; k" := (pbind m (fun _ => k))
  (at level 100, k at level 200, right associativity) : run_scope.

(** The global [config] that [load_config] fills from the YAML file: the
    keys that the code reads, each present or not; [files] is a list of
    dicts. *)
Record config := Config {
  cfg_server_uri : option pyval;
  cfg_admin_user : option pyval;
  cfg_admin_pass : option pyval;
  cfg_basepath : option pyval;
  cfg_pre_ingest : option pyval;
  cfg_post_ingest : option pyval;
  cfg_files : option (list filespec)
}.

(** [config[k]] *)
Definition config_item (v : option pyval) (k : string) : P pyval :=
  match v with
  | Some x => pret x
  | None => praise (KeyError k)
  end.

(** What [for x in v] goes through: the elements of a list, the
    characters of a string, the keys of a dict; [TypeError] for an object
    that is not iterable. *)
Definition py_iter (v : pyval) : P (list pyval) :=
  match v with
  | PyList l => pret l
  | PyStr s => pret (map (fun c => PyStr (String c "")) (list_ascii_of_string s))
  | PyDict kvs => pret (map (fun kv => PyStr (fst kv)) kvs)
  | _ => praise TypeError
  end.

(** [with self._driver.session() as session: body] in a run. *)
Definition with_session_run {A} (body : P A) : P A :=
  let '(t, r) := body in
  (Engine SessionOpen :: t ++ [Engine SessionClose], r).

(** The body of the [for statement in statements] loops. *)
Fixpoint run_statements (statements : list pyval) : P unit :=
  match statements with
  | [] => pret tt
  | statement :: statements' =>
      (pemit (Progress "Running:" statement) ;;
       pemit (Statement statement) ;;
       run_statements statements')%run
  end.

(** [LocalServer.__init__] *)
Definition local_server (cfg : config) : P unit :=
  (let* uri := config_item (cfg_server_uri cfg) "server_uri" in
   let* user := config_item (cfg_admin_user cfg) "admin_user" in
   let* password := config_item (cfg_admin_pass cfg) "admin_pass" in
   pemit (DriverOpen uri user password))%run.

(** [LocalServer.close] *)
Definition close : P unit := pemit DriverClose.

(** [LocalServer.pre_ingest] *)
Definition pre_ingest (cfg : config) : P unit :=
  match cfg_pre_ingest cfg with
  | Some statements =>
      (pemit (Progress "Starting pre-ingest" (PyStr "")) ;;
       with_session_run
         (let* statements := py_iter statements in
          run_statements statements) ;;
       pemit (Progress "Finished pre-ingest" (PyStr "")))%run
  | None => pret tt
  end.

(** [LocalServer.post_ingest] *)
Definition post_ingest (cfg : config) : P unit :=
  match cfg_post_ingest cfg with
  | Some statements =>
      (pemit (Progress "Starting post-ingest" (PyStr "")) ;;
       with_session_run
         (let* statements := py_iter statements in
          run_statements statements) ;;
       pemit (Progress "Finished post-ingest" (PyStr "")))%run
  | None => pret tt
  end.

Section Entry.

Variable urlparse : string -> parsed_url.
Variable fetch : handle -> option (list string).
Variable tokenize : tokenizer.
Variable ijson_parse : list string -> stream (string * token).

(** [main], once [load_config] has filled [config]. *)
Definition main (cfg : config) : P unit :=
  (local_server cfg ;;
   pre_ingest cfg ;;
   let* file_list :=
     match cfg_files cfg with
     | Some l => pret l
     | None => praise (KeyError "files")
     end in
   let* uri := config_item (cfg_server_uri cfg) "server_uri" in
   pemit (Progress "Using Server: " uri) ;;
   engine (main_files urlparse fetch tokenize ijson_parse
                      (cfg_basepath cfg) file_list) ;;
   post_ingest cfg ;;
   close)%run.

End Entry.

(* ===================================================================== *)
(** ** Definitions used to state the properties                            *)
(* ===================================================================== *)

(** The report of [get_params] about a resolved compression value. *)
Definition compression_report (compression : pyval) : list effect :=
  if supported_compression compression then []
  else [Print (MsgUnsupportedCompression compression)].

(** The parameter set that [get_params] resolves a FileSpec to. *)
Definition resolved (file : filespec) (url cql : pyval) : params :=
  Params (py_or (dict_get file "skip_records") (PyInt 0))
         (py_or (dict_get file "compression") (PyStr "none"))
         url cql
         (py_or (dict_get file "chunk_size") (PyInt 1000))
         (py_or (dict_get file "field_separator") (PyStr ",")).

(** The integer fields of a FileSpec, when declared, are integers that
    are not negative. *)
Definition declared_nonneg (file : filespec) (k : string) : Prop :=
  forall v, file !! k = Some v -> exists n, v = PyInt n /\ 0 <= n.

(** No effect of a trace touches a stream or the store. *)
Definition quiet (t : list effect) : Prop :=
  Forall (fun e => is_run e = false /\ is_stream_open e = false /\
                   is_session e = false) t.

(** A run with the report about compression [c] added after its first
    effect (for a reader, after the session is opened). *)
Definition reported {A} (c : pyval) (m : M A) : M A :=
  match trace m with
  | e :: t => (e :: Print (MsgUnsupportedCompression c) :: t, outcome m)
  | [] => ([Print (MsgUnsupportedCompression c)], outcome m)
  end.

(** [ceil(n / c)] *)
Definition ceil_div (n c : nat) : nat := ((n + c - 1) / c)%nat.

(** The sizes that the specification gives the batches of [n] records
    under a chunk size [c]: there are [ceil(n / c)] of them, each one but
    the last has [c] records, and the last has [n mod c] of them, or [c]
    when [n mod c = 0]. *)
Definition batch_sizes {A} (c n : nat) (bs : list (list A)) : Prop :=
  length bs = ceil_div n c /\
  (forall i b, bs !! i = Some b -> (i + 1 < length bs)%nat -> length b = c) /\
  (forall b, last bs = Some b ->
             length b = if (n mod c =? 0)%nat then c else (n mod c)%nat).

(** The shape of a chunked list: full chunks, then at most one chunk that
    is shorter and not empty. *)
Definition chunk_shape {A} (c : nat) (bs : list (list A)) : Prop :=
  exists fulls rest,
    bs = fulls ++ rest /\
    Forall (fun b => length b = c) fulls /\
    (rest = [] \/ exists b, rest = [b] /\ (0 < length b < c)%nat).

(** The batch that [load_json] submits after its loop, if any. *)
Definition flush (rows : list pyval) : list (list pyval) :=
  match rows with
  | [] => []
  | _ => [rows]
  end.

(** A separator of one character that every release hands to the
    tokenizer: one byte, and not the line end. *)
Definition one_char_separator (sep : string) : bool :=
  (String.length sep =? 1)%nat && negb (String.eqb sep (String "010" "")).

(** [lines] hold the data rows [rows], in this order, and nothing else:
    the tokenizer passes over a line as blank or finds fields in it, and
    then no more of them than there are names. *)
Inductive data_rows (tokenize : tokenizer) (sep : string) (names : list string)
  : list string -> list (list string) -> Prop :=
| rows_end : data_rows tokenize sep names [] []
| rows_blank (line : string) (lines : list string) (rows : list (list string)) :
    fields_of tokenize sep line = Ok None ->
    data_rows tokenize sep names lines rows ->
    data_rows tokenize sep names (line :: lines) rows
| rows_row (line : string) (fields : list string) (lines : list string)
           (rows : list (list string)) :
    fields_of tokenize sep line = Ok (Some fields) ->
    (length fields <= length names)%nat ->
    data_rows tokenize sep names lines rows ->
    data_rows tokenize sep names (line :: lines) (fields :: rows).

(** The record of a line with at most as many fields as there are names:
    the missing cells are empty strings. *)
Definition padded_record (names fields : list string) : pyval :=
  PyDict (zip names
              (map (fun f => PyStr (default "" (parse_cell f))) fields
               ++ replicate (length names - length fields) (PyStr ""))).

Inductive reader :=
| CsvReader
| JsonReader.

(** The reader that [load_file] reaches for a reader choice. *)
Definition run_reader (load_csv load_json : filespec -> M unit) (r : reader)
  : filespec -> M unit :=
  match r with
  | CsvReader => load_csv
  | JsonReader => load_json
  end.

(** The two progress lines of [load_file] around what it does for a file
    whose url is [u]. *)
Definition framed (u : string) (body : M unit) : M unit :=
  print_progress "Reading file:" (("'" +:+ u) +:+ "'") ;;
  body ;;
  print_progress "Completed file:" (("'" +:+ u) +:+ "'").

(** Sniffing as [load_file] does it: ['.csv'] is looked for first. *)
Definition sniffed_reader (u : string) : reader :=
  if existsb (String.eqb ".csv") (suffixes u) then CsvReader
  else if existsb (String.eqb ".json") (suffixes u) then JsonReader
  else CsvReader.

(** Sniffing in the order the specification gives: ['.json'] before
    ['.csv'], CSV when neither is present. *)
Definition spec_sniffed_reader (u : string) : reader :=
  if existsb (String.eqb ".json") (suffixes u) then JsonReader
  else if existsb (String.eqb ".csv") (suffixes u) then CsvReader
  else CsvReader.

(* ===================================================================== *)
(** ** Sample inputs                                                       *)
(* ===================================================================== *)

(** A world for the examples: urls are bare paths, every opener delivers
    the given lines, a line is split at the separator unless it is empty,
    and the lexer delivers the given events. *)
Definition plain_urlparse (u : string) : parsed_url := ParsedUrl "" "" u.

Definition serve (lines : list string) (h : handle) : option (list string) :=
  Some lines.

(** A line without its line end. *)
Definition chomp (line : string) : string :=
  match string_rev line with
  | String "010" (String "013" s) => string_rev s
  | String "010" s => string_rev s
  | _ => line
  end.

Definition line_tokenize : tokenizer :=
  Tokenizer
    (fun sep line =>
       if String.eqb (chomp line) "" then Ok None
       else Ok (Some (py_split sep (chomp line))))
    true false.

Definition give_events (events : list (string * token)) (lines : list string)
  : stream (string * token) :=
  (events, None).

Definition sample_load_file (lines : list string)
           (events : list (string * token)) : filespec -> M unit :=
  server_load_file plain_urlparse (serve lines) line_tokenize
                   (give_events events).

(** Readers that only leave a mark, to see which one is reached. *)
Definition probe (r : reader) (file : filespec) : M unit :=
  emit (Print (MsgProgress "reader"
                 match r with CsvReader => "csv" | JsonReader => "json" end)).

Definition file_skipped : filespec :=
  list_to_map [("url", PyStr "people.csv"); ("cql", PyStr "UNWIND $dict.rows AS row");
               ("skip_file", PyBool true)].

Definition file_both_suffixes : filespec :=
  list_to_map [("url", PyStr "data.csv.json"); ("cql", PyStr "UNWIND $dict.rows AS row")].

Definition file_type_xml : filespec :=
  list_to_map [("url", PyStr "data.json"); ("cql", PyStr "UNWIND $dict.rows AS row");
               ("type", PyStr "xml")].

Definition file_type_NA : filespec :=
  list_to_map [("url", PyStr "data.json"); ("cql", PyStr "UNWIND $dict.rows AS row");
               ("type", PyStr "NA")].

Definition file_sized : filespec :=
  list_to_map [("url", PyStr "people.csv"); ("cql", PyStr "UNWIND $dict.rows AS row");
               ("chunk_size", PyInt 2)].

Definition file_zero_chunk : filespec :=
  list_to_map [("url", PyStr "people.csv"); ("cql", PyStr "UNWIND $dict.rows AS row");
               ("chunk_size", PyInt 0)].

(** The events of [[{"a": 1}]]. *)
Definition events_one_object : list (string * token) :=
  [("", TStartArray);
   ("item", TStartMap); ("item", TMapKey "a"); ("item.a", TNumber (NInt 1));
   ("item", TEndMap);
   ("", TEndArray)].

Definition file_compression_no : filespec :=
  list_to_map [("url", PyStr "people.csv"); ("cql", PyStr "UNWIND $dict.rows AS row");
               ("compression", PyBool false)].

Definition file_compression_bz2 : filespec :=
  list_to_map [("url", PyStr "people.csv"); ("cql", PyStr "UNWIND $dict.rows AS row");
               ("compression", PyStr "bz2")].

(** The literal [3.14000000000000012] as ijson holds it, and the double
    nearest to it, [0x1.91eb851eb851fp+1]. *)
Definition literal_pi : decimal := Decimal false "314000000000000012" (-17).

Definition double_nearest_literal_pi : spec_float :=
  S754_finite false 7070651414971679 (-51).

(** The events of [[{"x": 3.14000000000000012}]]. *)
Definition events_literal_pi : list (string * token) :=
  [("", TStartArray);
   ("item", TStartMap); ("item", TMapKey "x");
   ("item.x", TNumber (NDecimal literal_pi));
   ("item", TEndMap);
   ("", TEndArray)].

Definition file_json : filespec :=
  list_to_map [("url", PyStr "data.json"); ("cql", PyStr "UNWIND $dict.rows AS row")].

(** The events of [[{"a": 1}, {"a": 2}, {"a": 3}]]. *)
Definition events_three_objects : list (string * token) :=
  [("", TStartArray);
   ("item", TStartMap); ("item", TMapKey "a"); ("item.a", TNumber (NInt 1));
   ("item", TEndMap);
   ("item", TStartMap); ("item", TMapKey "a"); ("item.a", TNumber (NInt 2));
   ("item", TEndMap);
   ("item", TStartMap); ("item", TMapKey "a"); ("item.a", TNumber (NInt 3));
   ("item", TEndMap);
   ("", TEndArray)].

Definition file_json_skip : filespec :=
  list_to_map [("url", PyStr "data.json"); ("cql", PyStr "UNWIND $dict.rows AS row");
               ("chunk_size", PyInt 2); ("skip_records", PyInt 1)].

Definition file_csv_skip : filespec :=
  list_to_map [("url", PyStr "people.csv"); ("cql", PyStr "UNWIND $dict.rows AS row");
               ("chunk_size", PyInt 2); ("skip_records", PyInt 1)].

Definition lines_people : list string :=
  ["id,name"; "1,Alice"; "2,Bob"; "3,Carol"].






(** A CSV stream that ends after its header line. *)
Definition lines_header_only : list string := ["id,name"].

(** The events of [[]]. *)
Definition events_empty_array : list (string * token) :=
  [("", TStartArray); ("", TEndArray)].

Definition file_people : filespec :=
  list_to_map [("url", PyStr "people.csv"); ("cql", PyStr "UNWIND $dict.rows AS row")].

Definition file_chunk_of_one : filespec :=
  list_to_map [("url", PyStr "people.csv"); ("cql", PyStr "UNWIND $dict.rows AS row");
               ("chunk_size", PyInt 1)].

Definition file_wide_separator : filespec :=
  list_to_map [("url", PyStr "people.csv"); ("cql", PyStr "UNWIND $dict.rows AS row");
               ("field_separator", PyStr "::")].

Definition file_skip_listed : filespec :=
  list_to_map [("url", PyStr "people.csv"); ("cql", PyStr "UNWIND $dict.rows AS row");
               ("skip_records", PyList [PyInt 0; PyInt 2])].

(** A tokenizer that fails at the line of Carol. *)
Definition tokenize_fails_at_carol : tokenizer :=
  Tokenizer
    (fun sep line =>
       if String.eqb line "3,Carol" then Raise ValueError
       else fields_of line_tokenize sep line)
    true false.

Definition file_without_url : filespec :=
  list_to_map [("cql", PyStr "UNWIND $dict.rows AS row"); ("skip_file", PyBool true)].

Definition file_numeric_url : filespec :=
  list_to_map [("url", PyInt 7); ("cql", PyStr "UNWIND $dict.rows AS row")].

Definition file_declared : filespec :=
  list_to_map [("url", PyStr "people.csv"); ("cql", PyStr "UNWIND $dict.rows AS row");
               ("skip_records", PyInt 3); ("compression", PyStr "gzip");
               ("chunk_size", PyInt 50); ("field_separator", PyStr ";")].


(** A lexer that delivers the given events and then fails. *)
Definition give_events_then_fail (events : list (string * token))
           (lines : list string) : stream (string * token) :=
  (events, Some JSONError).

(** The events of [[{"a": 1}, null, {"a": 2}]]. *)
Definition events_with_null : list (string * token) :=
  [("", TStartArray);
   ("item", TStartMap); ("item", TMapKey "a"); ("item.a", TNumber (NInt 1));
   ("item", TEndMap);
   ("item", TNull);
   ("item", TStartMap); ("item", TMapKey "a"); ("item.a", TNumber (NInt 2));
   ("item", TEndMap);
   ("", TEndArray)].

Definition file_json_two : filespec :=
  list_to_map [("url", PyStr "data.json"); ("cql", PyStr "UNWIND $dict.rows AS row");
               ("chunk_size", PyInt 2)].

(** A chunk size written as a string. *)
Definition file_json_text_chunk : filespec :=
  list_to_map [("url", PyStr "data.json"); ("cql", PyStr "UNWIND $dict.rows AS row");
               ("chunk_size", PyStr "2")].

Definition three_records : list pyval :=
  [PyDict [("a", PyStr "1")]; PyDict [("a", PyStr "2")];
   PyDict [("a", PyStr "3")]].

(** The effects of a reader once its stream is open: lines printed and
    queries run. *)
Definition store_only (e : effect) : bool :=
  match e with
  | Print _ | Run _ _ => true
  | _ => false
  end.

Definition is_print (e : effect) : bool :=
  match e with
  | Print _ => true
  | _ => false
  end.


Definition config_sample (files : list filespec) : config :=
  Config (Some (PyStr "bolt://localhost:7687")) (Some (PyStr "neo4j"))
         (Some (PyStr "secret")) None
         (Some (PyList [PyStr "CREATE INDEX ON :Person(id)"]))
         (Some (PyList [PyStr "MATCH (n:Tmp) DELETE n"]))
         (Some files).


Definition config_without_files : config :=
  Config (Some (PyStr "bolt://localhost:7687")) (Some (PyStr "neo4j"))
         (Some (PyStr "secret")) None
         (Some (PyList [PyStr "CREATE INDEX ON :Person(id)"])) None None.

(** A number of records to skip written as a string. *)
Definition file_json_text_skip : filespec :=
  list_to_map [("url", PyStr "data.json"); ("cql", PyStr "UNWIND $dict.rows AS row");
               ("skip_records", PyStr "1")].

(** [data_rows] at given lines and rows, by evaluation of the tokenizer. *)
Ltac data_rows_by_evaluation :=
  repeat first
    [ apply rows_end
    | apply rows_row; [vm_compute; reflexivity|simpl; lia|]
    | apply rows_blank; [vm_compute; reflexivity|] ].

(* ===================================================================== *)
(** ** Basic facts                                                         *)
(* ===================================================================== *)

Lemma bind_ret_l {A B} (a : A) (k : A -> M B) : bind (ret a) k = k a.
Proof. unfold bind, ret. destruct (k a) as [t r]. reflexivity. Qed.

Lemma bind_lift_ok {A B} (a : A) (k : A -> M B) : bind (lift (Ok a)) k = k a.
Proof. exact (bind_ret_l a k). Qed.

Lemma bind_emit {B} (e : effect) (k : unit -> M B) :
  bind (emit e) k = (e :: trace (k tt), outcome (k tt)).
Proof. unfold bind, emit, trace, outcome. destruct (k tt). reflexivity. Qed.

Lemma batches_app (t1 t2 : list effect) :
  batches (t1 ++ t2) = batches t1 ++ batches t2.
Proof.
  induction t1 as [|e t1 IH]; simpl; [reflexivity|].
  destruct e; simpl; rewrite ?IH; reflexivity.
Qed.

Lemma quiet_batches (t : list effect) : quiet t -> batches t = [].
Proof.
  induction 1 as [|e t [Hr _] _ IH]; simpl; [reflexivity|].
  destruct e; simpl in *; try discriminate; exact IH.
Qed.

(** [get_params] on a FileSpec that declares [url] and [cql]. *)
Lemma get_params_ok (file : filespec) (u q : pyval) :
  file !! "url" = Some u -> file !! "cql" = Some q ->
  get_params file =
    (compression_report (py_or (dict_get file "compression") (PyStr "none")),
     Ok (resolved file u q)).
Proof.
  intros Hu Hq. unfold get_params, dict_item, compression_report, resolved.
  rewrite Hu, Hq.
  destruct (supported_compression _); reflexivity.
Qed.

(* ===================================================================== *)
(** ** Runs on small inputs                                                *)
(* ===================================================================== *)

Example str_decimal_literal : decimal_str literal_pi = "3.14000000000000012".
Proof. vm_compute. reflexivity. Qed.

Example str_decimal_exponent : decimal_str (Decimal true "15" (-9)) = "-1.5E-8".
Proof. vm_compute. reflexivity. Qed.

Example str_int_negative : str_number (NInt (-42)) = "-42".
Proof. vm_compute. reflexivity. Qed.

Example split_header : py_split "," (py_strip "id,name ") = ["id"; "name"].
Proof. vm_compute. reflexivity. Qed.

Example split_wide_separator : py_split "::" "a::b:::c" = ["a"; "b"; ":c"].
Proof. vm_compute. reflexivity. Qed.

(** [strip] takes off a no-break space (U+00A0, the bytes 194 and 160) and
    an ideographic space (U+3000) as it takes off a blank and a line end. *)
Example strip_unicode_space :
  py_strip (String "194" (String "160" " id,name")
            +:+ String "227" (String "128" (String "128" (String "010" "")))) =
    "id,name".
Proof. vm_compute. reflexivity. Qed.

Example tail_of_path : py_tail "/dir/data.csv" = "dir/data.csv".
Proof. vm_compute. reflexivity. Qed.

(** [+] on values of a configuration. *)
Example add_two_numbers : py_add (PyInt 5) (PyInt 3) = ([], Ok (PyInt 8)).
Proof. vm_compute. reflexivity. Qed.

Example add_two_lists :
  py_add (PyList [PyInt 1]) (PyList [PyStr "a"]) =
    ([], Ok (PyList [PyInt 1; PyStr "a"])).
Proof. vm_compute. reflexivity. Qed.

Example add_float_and_int :
  py_add (PyFloat (S754_finite false 3 (-1))) (PyInt 1) =
    ([], Ok (PyFloat (S754_finite false 5629499534213120 (-51)))).
Proof. vm_compute. reflexivity. Qed.

Example add_text_and_number :
  py_add (PyStr "/data/") (PyInt 3) = ([], Raise TypeError).
Proof. vm_compute. reflexivity. Qed.

Example suffixes_of_url :
  suffixes "s3://bucket/dir.x/data.csv.gz" = [".csv"; ".gz"].
Proof. vm_compute. reflexivity. Qed.

Example suffixes_hidden_file : suffixes "a/b/.hidden.tar.gz/" = [".tar"; ".gz"].
Proof. vm_compute. reflexivity. Qed.

(** The CSV scenario of the specification: header [id,name], three rows,
    [chunk_size = 2]: two batches. *)
Example csv_three_rows_two_batches :
  batches (trace (sample_load_file lines_people [] file_sized)) =
    [[PyDict [("id", PyStr "1"); ("name", PyStr "Alice")];
      PyDict [("id", PyStr "2"); ("name", PyStr "Bob")]];
     [PyDict [("id", PyStr "3"); ("name", PyStr "Carol")]]].
Proof. vm_compute. reflexivity. Qed.

(** The JSON scenario of the specification: three objects,
    [chunk_size = 2], [skip_records = 1]: one batch of the last two, whose
    numbers are strings. *)
Example json_three_objects_skip_one :
  batches (trace (sample_load_file [] events_three_objects file_json_skip)) =
    [[PyDict [("a", PyStr "2")]; PyDict [("a", PyStr "3")]]].
Proof. vm_compute. reflexivity. Qed.

(** A line with more fields than the header that is not the first row
    of its chunk, a blank line and a cell holding an NA string. *)
Example csv_odd_lines :
  batches (trace (sample_load_file
                    ["id,name"; "1,Alice"; "3,Carol,x"; ""; "4,NA"] []
                    file_people)) =
    [[PyDict [("id", PyStr "1"); ("name", PyStr "Alice")];
      PyDict [("id", PyStr "4"); ("name", PyStr "")]]].
Proof. vm_compute. reflexivity. Qed.

(** A first row with more fields than the header is kept, cut to the
    width of the header. *)
Example csv_long_first_row :
  batches (trace (sample_load_file ["id,name"; "1,Alice,x"; "2,Bob"] []
                                   file_people)) =
    [[PyDict [("id", PyStr "1"); ("name", PyStr "Alice")];
      PyDict [("id", PyStr "2"); ("name", PyStr "Bob")]]].
Proof. vm_compute. reflexivity. Qed.

(** With [chunk_size = 1] every row is the first of its chunk, so that no
    line is dropped for its number of fields. *)
Example csv_long_rows_chunk_of_one :
  batches (trace (sample_load_file
                    ["id,name"; "1,Alice"; "2,Bob,x"; "3,Carol,y,z"] []
                    file_chunk_of_one)) =
    [[PyDict [("id", PyStr "1"); ("name", PyStr "Alice")]];
     [PyDict [("id", PyStr "2"); ("name", PyStr "Bob")]];
     [PyDict [("id", PyStr "3"); ("name", PyStr "Carol")]]].
Proof. vm_compute. reflexivity. Qed.

(** A separator of two characters: the C engine refuses it before a line
    is read. *)
Example csv_wide_separator_refused :
  load_csv plain_urlparse (serve ["id::name"; "1::Alice"]) line_tokenize
           file_wide_separator =
    ([SessionOpen; StreamOpen (SmartOpen (PathName "people.csv"));
      SessionClose],
     Raise ValueError).
Proof. vm_compute. reflexivity. Qed.

(** A list of line numbers as [skip_records]: the CSV reader passes over
    these lines. *)
Example csv_skip_listed_lines :
  batches (trace (load_csv plain_urlparse (serve lines_people) line_tokenize
                           file_skip_listed)) =
    [[PyDict [("id", PyStr "2"); ("name", PyStr "Bob")]]].
Proof. vm_compute. reflexivity. Qed.

(** The tokenizer fails at the third row, with [chunk_size = 1]: the first
    two rows are submitted, and the error ends the reader. *)
Example csv_tokenizer_error :
  load_csv plain_urlparse (serve lines_people) tokenize_fails_at_carol
           file_chunk_of_one =
    ([SessionOpen; StreamOpen (SmartOpen (PathName "people.csv"));
      Run (PyStr "UNWIND $dict.rows AS row")
          [PyDict [("id", PyStr "1"); ("name", PyStr "Alice")]];
      Run (PyStr "UNWIND $dict.rows AS row")
          [PyDict [("id", PyStr "2"); ("name", PyStr "Bob")]];
      SessionClose],
     Raise ValueError).
Proof. vm_compute. reflexivity. Qed.

(** A url that is [None]: [urlparse] lets it through and the opener
    refuses it; a url that is a number other than [0] makes [urlparse]
    fail. *)
Example file_handle_url_none :
  file_handle plain_urlparse (serve []) PyNone (PyStr "none") =
    ([StreamOpen (SmartOpen (RawObject PyNone))], Raise TypeError) /\
  file_handle plain_urlparse (serve []) PyNone (PyStr "gzip") =
    ([StreamOpen (GzipOpen (RawObject PyNone))], Raise TypeError) /\
  file_handle plain_urlparse (serve []) PyNone (PyStr "zip") =
    ([], Raise AttributeError) /\
  file_handle plain_urlparse (serve []) (PyInt 7) (PyStr "none") =
    ([], Raise AttributeError).
Proof. repeat split; vm_compute; reflexivity. Qed.

(** A [null] among the top-level elements ends the loop of [load_json]. *)
Example json_null_halts :
  batches (trace (sample_load_file []
                    [("", TStartArray); ("item", TString "a");
                     ("item", TNull); ("item", TString "b");
                     ("", TEndArray)]
                    file_json)) =
    [[PyStr "a"]].
Proof. vm_compute. reflexivity. Qed.

(* ===================================================================== *)
(** ** Parameter resolution                                                *)
(* ===================================================================== *)

(** C7.  For a FileSpec that declares [url] and [cql] and whose
    [skip_records] and [chunk_size], when declared, are integers that are
    not negative, [get_params] returns a parameter set that keeps the
    declared url and query, holds the default [0], [1000], ['none'], [',']
    for each optional field that is absent, and satisfies
    [chunk_size >= 1] and [skip_records >= 0]. *)
Theorem C7_get_params_defaults (file : filespec) (u q : pyval) :
  file !! "url" = Some u -> file !! "cql" = Some q ->
  declared_nonneg file "skip_records" ->
  declared_nonneg file "chunk_size" ->
  exists p,
    outcome (get_params file) = Ok p /\
    p_url p = u /\ p_cql p = q /\
    (file !! "skip_records" = None -> p_skip_records p = PyInt 0) /\
    (file !! "chunk_size" = None -> p_chunk_size p = PyInt 1000) /\
    (file !! "compression" = None -> p_compression p = PyStr "none") /\
    (file !! "field_separator" = None -> p_field_sep p = PyStr ",") /\
    (exists c, p_chunk_size p = PyInt c /\ 1 <= c) /\
    (exists k, p_skip_records p = PyInt k /\ 0 <= k).
Proof.
  intros Hu Hq Hskip Hchunk.
  exists (resolved file u q).
  rewrite (get_params_ok file u q Hu Hq). simpl.
  unfold dict_get.
  repeat split; try (intros ->; reflexivity).
  - destruct (file !! "chunk_size") as [v|] eqn:E; simpl.
    + destruct (Hchunk v E) as (n & -> & Hn). unfold py_or; simpl.
      destruct (Z.eqb_spec n 0) as [->|Hne]; simpl.
      * exists 1000. split; [reflexivity|lia].
      * exists n. split; [reflexivity|lia].
    + exists 1000. split; [reflexivity|lia].
  - destruct (file !! "skip_records") as [v|] eqn:E; simpl.
    + destruct (Hskip v E) as (n & -> & Hn). unfold py_or; simpl.
      destruct (Z.eqb_spec n 0) as [->|Hne]; simpl.
      * exists 0. split; [reflexivity|lia].
      * exists n. split; [reflexivity|lia].
    + exists 0. split; [reflexivity|lia].
Qed.

Lemma C7_get_params_defaults_witness :
  exists p,
    outcome (get_params file_sized) = Ok p /\
    p_url p = PyStr "people.csv" /\
    p_cql p = PyStr "UNWIND $dict.rows AS row" /\
    (file_sized !! "skip_records" = None -> p_skip_records p = PyInt 0) /\
    (file_sized !! "chunk_size" = None -> p_chunk_size p = PyInt 1000) /\
    (file_sized !! "compression" = None -> p_compression p = PyStr "none") /\
    (file_sized !! "field_separator" = None -> p_field_sep p = PyStr ",") /\
    (exists c, p_chunk_size p = PyInt c /\ 1 <= c) /\
    (exists k, p_skip_records p = PyInt k /\ 0 <= k).
Proof.
  apply (C7_get_params_defaults file_sized).
  - vm_compute; reflexivity.
  - vm_compute; reflexivity.
  - intros v H. vm_compute in H. discriminate H.
  - intros v H. vm_compute in H. injection H as <-.
    exists 2. split; [reflexivity|lia].
Defined.

(** C9.  A declared value that is falsy is replaced by the default, and
    nothing is reported for it: the only report of [get_params] is the one
    about an unsupported compression, and there is none when the declared
    compression is falsy.  A declared [chunk_size] of [0] resolves to
    [1000]. *)
Theorem C9_falsy_values_replaced (file : filespec) (u q : pyval) :
  file !! "url" = Some u -> file !! "cql" = Some q ->
  exists p,
    outcome (get_params file) = Ok p /\
    trace (get_params file) = compression_report (p_compression p) /\
    (truthy (dict_get file "chunk_size") = false ->
     p_chunk_size p = PyInt 1000) /\
    (truthy (dict_get file "skip_records") = false ->
     p_skip_records p = PyInt 0) /\
    (truthy (dict_get file "field_separator") = false ->
     p_field_sep p = PyStr ",") /\
    (truthy (dict_get file "compression") = false ->
     p_compression p = PyStr "none" /\ trace (get_params file) = []) /\
    (file !! "chunk_size" = Some (PyInt 0) -> p_chunk_size p = PyInt 1000).
Proof.
  intros Hu Hq.
  exists (resolved file u q).
  rewrite (get_params_ok file u q Hu Hq). simpl.
  unfold py_or.
  split; [reflexivity|]. split; [reflexivity|].
  split; [intros ->; reflexivity|].
  split; [intros ->; reflexivity|].
  split; [intros ->; reflexivity|].
  split; [intros ->; split; reflexivity|].
  unfold dict_get. intros ->. reflexivity.
Qed.

Lemma C9_falsy_values_replaced_witness :
  exists p,
    outcome (get_params file_zero_chunk) = Ok p /\
    trace (get_params file_zero_chunk) = compression_report (p_compression p) /\
    (truthy (dict_get file_zero_chunk "chunk_size") = false ->
     p_chunk_size p = PyInt 1000) /\
    (truthy (dict_get file_zero_chunk "skip_records") = false ->
     p_skip_records p = PyInt 0) /\
    (truthy (dict_get file_zero_chunk "field_separator") = false ->
     p_field_sep p = PyStr ",") /\
    (truthy (dict_get file_zero_chunk "compression") = false ->
     p_compression p = PyStr "none" /\ trace (get_params file_zero_chunk) = []) /\
    (file_zero_chunk !! "chunk_size" = Some (PyInt 0) ->
     p_chunk_size p = PyInt 1000).
Proof.
  apply (C9_falsy_values_replaced file_zero_chunk (PyStr "people.csv")
           (PyStr "UNWIND $dict.rows AS row")); vm_compute; reflexivity.
Defined.

(* ===================================================================== *)
(** ** The orchestrator                                                    *)
(* ===================================================================== *)

Lemma truthy_or_false (v : pyval) :
  truthy (py_or v (PyBool false)) = truthy v.
Proof. unfold py_or. destruct (truthy v) eqn:E; [exact E|reflexivity]. Qed.

Lemma is_str_false (s : string) (v : pyval) :
  v <> PyStr s -> is_str s v = false.
Proof.
  intros Hne. destruct v; simpl; try reflexivity.
  destruct (String.eqb_spec s0 s) as [->|]; [congruence|reflexivity].
Qed.

Lemma existsb_eqb_In (x : string) (l : list string) :
  existsb (String.eqb x) l = true <-> In x l.
Proof.
  rewrite existsb_exists. split.
  - intros (y & Hy & E). apply String.eqb_eq in E. subst. exact Hy.
  - intros H. exists x. split; [exact H|apply String.eqb_refl].
Qed.

Lemma existsb_eqb_not_In (x : string) (l : list string) :
  ~ In x l -> existsb (String.eqb x) l = false.
Proof.
  intros H. destruct (existsb (String.eqb x) l) eqn:E; [|reflexivity].
  apply existsb_eqb_In in E. contradiction.
Qed.

Section Dispatch_facts.

Variables load_csv' load_json' : filespec -> M unit.

(** A file whose [skip_file] is truthy: one line is printed. *)
Lemma load_file_skipped (file : filespec) :
  truthy (dict_get file "skip_file") = true ->
  load_file load_csv' load_json' file =
    (let* url := dict_item file "url" in emit (Print (MsgSkipping url))).
Proof.
  intros H. unfold load_file. rewrite truthy_or_false, H. reflexivity.
Qed.

(** A file that is not skipped and whose url is a string. *)
Lemma load_file_running (file : filespec) (u : string) :
  truthy (dict_get file "skip_file") = false ->
  file !! "url" = Some (PyStr u) ->
  load_file load_csv' load_json' file =
    framed u
      (let type := py_or (dict_get file "type") (PyStr "NA") in
       if negb (is_str "NA" type) then
         if is_str "csv" type then load_csv' file
         else if is_str "json" type then load_json' file
         else emit (Print (MsgUnknownType type))
       else run_reader load_csv' load_json' (sniffed_reader u) file).
Proof.
  intros Hskip Hu. unfold load_file, framed.
  rewrite truthy_or_false, Hskip. unfold dict_item. rewrite Hu.
  unfold str_add, as_str. rewrite !bind_ret_l.
  destruct (negb (is_str "NA" (py_or (dict_get file "type") (PyStr "NA"))));
    [reflexivity|].
  unfold sniffed_reader, run_reader.
  destruct (existsb (String.eqb ".csv") (suffixes u)); [reflexivity|].
  destruct (existsb (String.eqb ".json") (suffixes u)); reflexivity.
Qed.

End Dispatch_facts.

Section Orchestrator_facts.

Variable urlparse : string -> parsed_url.
Variable fetch : handle -> option (list string).
Variable tokenize : tokenizer.
Variable ijson_parse : list string -> stream (string * token).

Let server := server_load_file urlparse fetch tokenize ijson_parse.

Lemma server_skipped (file : filespec) :
  truthy (dict_get file "skip_file") = true ->
  quiet (trace (server file)) /\
  (forall u, file !! "url" = Some u ->
             server file = ([Print (MsgSkipping u)], Ok tt)).
Proof.
  intros H. unfold server, server_load_file.
  rewrite load_file_skipped by exact H. unfold dict_item.
  destruct (file !! "url") as [u|]; simpl.
  - split.
    + repeat constructor.
    + intros u' [= <-]. reflexivity.
  - split; [constructor|discriminate].
Qed.

Lemma server_unknown_type (file : filespec) (u : string) (t : pyval) :
  truthy (dict_get file "skip_file") = false ->
  file !! "url" = Some (PyStr u) ->
  file !! "type" = Some t -> truthy t = true ->
  t <> PyStr "NA" -> t <> PyStr "csv" -> t <> PyStr "json" ->
  server file =
    ([Print (MsgProgress "Reading file:" (("'" +:+ u) +:+ "'"));
      Print (MsgUnknownType t);
      Print (MsgProgress "Completed file:" (("'" +:+ u) +:+ "'"))],
     Ok tt).
Proof.
  intros Hskip Hu Ht Htruthy HNA Hcsv Hjson.
  unfold server, server_load_file.
  rewrite (load_file_running _ _ file u Hskip Hu).
  unfold dict_get. rewrite Ht. simpl. unfold py_or. rewrite Htruthy.
  rewrite (is_str_false _ _ HNA), (is_str_false _ _ Hcsv),
    (is_str_false _ _ Hjson).
  reflexivity.
Qed.

End Orchestrator_facts.

(** C6.  A file whose [skip_file] is [true]: [load_file] opens no session,
    opens no stream and submits no batch; when the url is declared, all it
    does is print that the file is skipped. *)
Theorem C6_skip_file_inert
        (urlparse : string -> parsed_url)
        (fetch : handle -> option (list string))
        (tokenize : tokenizer)
        (ijson_parse : list string -> stream (string * token))
        (file : filespec) :
  file !! "skip_file" = Some (PyBool true) ->
  quiet (trace (server_load_file urlparse fetch tokenize ijson_parse file)) /\
  batches (trace (server_load_file urlparse fetch tokenize ijson_parse file)) = [] /\
  (forall u, file !! "url" = Some u ->
     server_load_file urlparse fetch tokenize ijson_parse file =
       ([Print (MsgSkipping u)], Ok tt)).
Proof.
  intros H.
  assert (Ht : truthy (dict_get file "skip_file") = true)
    by (unfold dict_get; rewrite H; reflexivity).
  destruct (server_skipped urlparse fetch tokenize ijson_parse file Ht)
    as [Hq Hu].
  split; [exact Hq|]. split; [apply quiet_batches; exact Hq|exact Hu].
Qed.

Lemma C6_skip_file_inert_witness :
  file_skipped !! "skip_file" = Some (PyBool true) /\
  quiet (trace (sample_load_file ["id,name"; "1,Alice"] [] file_skipped)) /\
  batches (trace (sample_load_file ["id,name"; "1,Alice"] [] file_skipped)) = [] /\
  (forall u, file_skipped !! "url" = Some u ->
     sample_load_file ["id,name"; "1,Alice"] [] file_skipped =
       ([Print (MsgSkipping u)], Ok tt)).
Proof.
  split; [vm_compute; reflexivity|].
  apply (C6_skip_file_inert plain_urlparse (serve ["id,name"; "1,Alice"])
           line_tokenize (give_events []) file_skipped).
  vm_compute; reflexivity.
Defined.

(** C2 as amended.  For a file that is not skipped and whose url is a
    string: without a declared type the reader is chosen by the suffixes
    of the url, ['.csv'] being looked for before ['.json'] and CSV being
    the choice when neither is present; a declared type of ['csv'] or
    ['json'] decides whatever the suffixes are. *)
Theorem C2_reader_selection
        (load_csv load_json : filespec -> M unit)
        (file : filespec) (u : string) :
  truthy (dict_get file "skip_file") = false ->
  file !! "url" = Some (PyStr u) ->
  (truthy (dict_get file "type") = false ->
     (In ".csv" (suffixes u) ->
        load_file load_csv load_json file = framed u (load_csv file)) /\
     (~ In ".csv" (suffixes u) -> In ".json" (suffixes u) ->
        load_file load_csv load_json file = framed u (load_json file)) /\
     (~ In ".csv" (suffixes u) -> ~ In ".json" (suffixes u) ->
        load_file load_csv load_json file = framed u (load_csv file))) /\
  (file !! "type" = Some (PyStr "csv") ->
     load_file load_csv load_json file = framed u (load_csv file)) /\
  (file !! "type" = Some (PyStr "json") ->
     load_file load_csv load_json file = framed u (load_json file)).
Proof.
  intros Hskip Hu.
  rewrite (load_file_running load_csv load_json file u Hskip Hu).
  split; [|split].
  - intros Ht. unfold py_or. rewrite Ht. simpl.
    unfold sniffed_reader. split; [|split].
    + intros Hc. apply existsb_eqb_In in Hc. rewrite Hc. reflexivity.
    + intros Hc Hj. rewrite (existsb_eqb_not_In _ _ Hc).
      apply existsb_eqb_In in Hj. rewrite Hj. reflexivity.
    + intros Hc Hj.
      rewrite (existsb_eqb_not_In _ _ Hc), (existsb_eqb_not_In _ _ Hj).
      reflexivity.
  - intros Ht. unfold dict_get. rewrite Ht. reflexivity.
  - intros Ht. unfold dict_get. rewrite Ht. reflexivity.
Qed.

Lemma C2_reader_selection_witness :
  truthy (dict_get file_both_suffixes "skip_file") = false /\
  file_both_suffixes !! "url" = Some (PyStr "data.csv.json") /\
  truthy (dict_get file_both_suffixes "type") = false /\
  In ".csv" (suffixes "data.csv.json") /\
  load_file (probe CsvReader) (probe JsonReader) file_both_suffixes =
    framed "data.csv.json" (probe CsvReader file_both_suffixes).
Proof.
  assert (Hskip : truthy (dict_get file_both_suffixes "skip_file") = false)
    by (vm_compute; reflexivity).
  assert (Hu : file_both_suffixes !! "url" = Some (PyStr "data.csv.json"))
    by (vm_compute; reflexivity).
  assert (Ht : truthy (dict_get file_both_suffixes "type") = false)
    by (vm_compute; reflexivity).
  assert (Hin : In ".csv" (suffixes "data.csv.json"))
    by (vm_compute; left; reflexivity).
  repeat (split; [assumption|]).
  exact (proj1 (proj1 (C2_reader_selection (probe CsvReader) (probe JsonReader)
                         file_both_suffixes "data.csv.json" Hskip Hu) Ht) Hin).
Defined.

(** C2 as stated fails: the url [data.csv.json] carries both suffixes;
    looking for ['.json'] first would choose the JSON reader, and
    [load_file] reaches the CSV reader, never the JSON one. *)
Lemma C2_json_not_before_csv :
  file_both_suffixes !! "type" = None /\
  spec_sniffed_reader "data.csv.json" = JsonReader /\
  trace (load_file (probe CsvReader) (probe JsonReader) file_both_suffixes) =
    [Print (MsgProgress "Reading file:" "'data.csv.json'");
     Print (MsgProgress "reader" "csv");
     Print (MsgProgress "Completed file:" "'data.csv.json'")] /\
  load_file (probe CsvReader) (probe JsonReader) file_both_suffixes <>
    framed "data.csv.json"
      (run_reader (probe CsvReader) (probe JsonReader)
                  (spec_sniffed_reader "data.csv.json") file_both_suffixes).
Proof.
  split; [vm_compute; reflexivity|].
  split; [vm_compute; reflexivity|].
  split; [vm_compute; reflexivity|].
  vm_compute. discriminate.
Qed.

(** C10 as amended.  For a file that is not skipped, whose url is a
    string and whose declared type is truthy and is none of ['csv'],
    ['json'] and ['NA']: [load_file] prints the error between its two
    progress lines and does nothing else (no session, no stream, no
    batch, no exception), and the loop of [main] goes on with the files
    that follow. *)
Theorem C10_unknown_type_reported
        (urlparse : string -> parsed_url)
        (fetch : handle -> option (list string))
        (tokenize : tokenizer)
        (ijson_parse : list string -> stream (string * token))
        (file : filespec) (u : string) (t : pyval) (rest : list filespec) :
  truthy (dict_get file "skip_file") = false ->
  file !! "url" = Some (PyStr u) ->
  file !! "type" = Some t -> truthy t = true ->
  t <> PyStr "NA" -> t <> PyStr "csv" -> t <> PyStr "json" ->
  server_load_file urlparse fetch tokenize ijson_parse file =
    ([Print (MsgProgress "Reading file:" (("'" +:+ u) +:+ "'"));
      Print (MsgUnknownType t);
      Print (MsgProgress "Completed file:" (("'" +:+ u) +:+ "'"))],
     Ok tt) /\
  quiet (trace (server_load_file urlparse fetch tokenize ijson_parse file)) /\
  main_files urlparse fetch tokenize ijson_parse None (file :: rest) =
    ([Print (MsgProgress "Reading file:" (("'" +:+ u) +:+ "'"));
      Print (MsgUnknownType t);
      Print (MsgProgress "Completed file:" (("'" +:+ u) +:+ "'"))]
       ++ trace (main_files urlparse fetch tokenize ijson_parse None rest),
     outcome (main_files urlparse fetch tokenize ijson_parse None rest)).
Proof.
  intros Hskip Hu Ht Htruthy HNA Hcsv Hjson.
  pose proof (server_unknown_type urlparse fetch tokenize ijson_parse
                file u t Hskip Hu Ht Htruthy HNA Hcsv Hjson) as E.
  split; [exact E|]. split.
  - rewrite E. repeat constructor.
  - cbn [main_files]. rewrite bind_ret_l, E. unfold bind.
    destruct (main_files urlparse fetch tokenize ijson_parse None rest).
    reflexivity.
Qed.

Lemma C10_unknown_type_reported_witness :
  sample_load_file [] events_one_object file_type_xml =
    ([Print (MsgProgress "Reading file:" "'data.json'");
      Print (MsgUnknownType (PyStr "xml"));
      Print (MsgProgress "Completed file:" "'data.json'")],
     Ok tt).
Proof.
  refine (proj1 (C10_unknown_type_reported plain_urlparse (serve [])
                   line_tokenize (give_events events_one_object)
                   file_type_xml "data.json" (PyStr "xml") []
                   _ _ _ _ _ _ _));
    solve [vm_compute; reflexivity | discriminate].
Defined.

(** C10 as stated fails: a declared type ['NA'] is neither ['csv'] nor
    ['json'], and the file is read all the same, here by the JSON reader
    that its suffix selects: a stream is opened and a batch is
    submitted. *)
Lemma C10_type_NA_is_dispatched :
  file_type_NA !! "type" = Some (PyStr "NA") /\
  sample_load_file [] events_one_object file_type_NA =
    ([Print (MsgProgress "Reading file:" "'data.json'");
      SessionOpen;
      StreamOpen (SmartOpen (PathName "data.json"));
      Print (MsgChunk (PyStr "data.json") 0);
      Run (PyStr "UNWIND $dict.rows AS row") [PyDict [("a", PyStr "1")]];
      SessionClose;
      Print (MsgProgress "Completed file:" "'data.json'")],
     Ok tt).
Proof. split; vm_compute; reflexivity. Qed.

(* ===================================================================== *)
(** ** Unsupported compression                                             *)
(* ===================================================================== *)

Lemma bind_pair {A B} (t : list effect) (a : A) (k : A -> M B) :
  bind (t, Ok a) k = (t ++ trace (k a), outcome (k a)).
Proof. unfold bind, trace, outcome. destruct (k a). reflexivity. Qed.

(** The loop of [load_json] reads four entries of the parameter set. *)
Lemma json_loop_ext (p p' : params) :
  p_skip_records p = p_skip_records p' ->
  p_chunk_size p = p_chunk_size p' ->
  p_url p = p_url p' -> p_cql p = p_cql p' ->
  forall items stop rec_num chunk_num rows,
    json_loop p items stop rec_num chunk_num rows =
    json_loop p' items stop rec_num chunk_num rows.
Proof.
  intros Hs Hc Hu Hq items stop.
  induction items as [|row items IH]; intros rec_num chunk_num rows; simpl.
  - reflexivity.
  - destruct (is_none row); [reflexivity|].
    rewrite Hs, Hc, Hu, Hq.
    destruct (int_gt (rec_num + 1) (p_skip_records p')) as [[|]|e]; simpl;
      try reflexivity.
    + destruct (int_eq _ _); rewrite ?IH; reflexivity.
    + rewrite IH; reflexivity.
Qed.

Lemma csv_loop_ext (p p' : params) :
  p_cql p = p_cql p' ->
  forall row_chunks stop,
    csv_loop p row_chunks stop = csv_loop p' row_chunks stop.
Proof.
  intros Hq row_chunks stop.
  induction row_chunks as [|rows cs IH]; cbn [csv_loop].
  - reflexivity.
  - rewrite Hq, IH. reflexivity.
Qed.

Lemma unsupported_not_gzip_zip (c : pyval) :
  supported_compression c = false ->
  is_str "gzip" c = false /\ is_str "zip" c = false.
Proof.
  unfold supported_compression. simpl.
  destruct (is_str "gzip" c), (is_str "zip" c); simpl; intros H;
    try discriminate; split; reflexivity.
Qed.

Lemma dict_get_delete_ne (file : filespec) (k k' : string) :
  k <> k' -> dict_get (delete k file) k' = dict_get file k'.
Proof. intros H. unfold dict_get. rewrite lookup_delete_ne by exact H. reflexivity. Qed.

Section Compression_facts.

Variable urlparse : string -> parsed_url.
Variable fetch : handle -> option (list string).
Variable tokenize : tokenizer.
Variable ijson_parse : list string -> stream (string * token).

(** An unsupported value reaches the same opener as ['none']. *)
Lemma file_handle_unsupported (url c : pyval) :
  supported_compression c = false ->
  file_handle urlparse fetch url c =
  file_handle urlparse fetch url (PyStr "none").
Proof.
  intros H. destruct (unsupported_not_gzip_zip c H) as [Hg Hz].
  unfold file_handle. destruct url; rewrite ?Hg, ?Hz; reflexivity.
Qed.

Variables (file : filespec) (u q c : pyval).
Hypothesis Hu : file !! "url" = Some u.
Hypothesis Hq : file !! "cql" = Some q.
Hypothesis Hc : file !! "compression" = Some c.
Hypothesis Htruthy : truthy c = true.
Hypothesis Hbad : supported_compression c = false.

Lemma resolved_compression :
  py_or (dict_get file "compression") (PyStr "none") = c.
Proof. unfold dict_get. rewrite Hc. simpl. unfold py_or. rewrite Htruthy. reflexivity. Qed.

Lemma get_params_unsupported :
  get_params file =
    ([Print (MsgUnsupportedCompression c)], Ok (resolved file u q)) /\
  p_compression (resolved file u q) = c.
Proof.
  rewrite (get_params_ok file u q Hu Hq). unfold resolved; simpl.
  rewrite resolved_compression. unfold compression_report. rewrite Hbad.
  split; reflexivity.
Qed.

Lemma get_params_undeclared :
  get_params (delete "compression" file) =
    ([], Ok (Params (p_skip_records (resolved file u q)) (PyStr "none") u q
                    (p_chunk_size (resolved file u q))
                    (p_field_sep (resolved file u q)))).
Proof.
  rewrite (get_params_ok (delete "compression" file) u q)
    by (rewrite lookup_delete_ne by discriminate; assumption).
  unfold resolved.
  rewrite (dict_get_delete_ne file "compression" "skip_records"),
    (dict_get_delete_ne file "compression" "chunk_size"),
    (dict_get_delete_ne file "compression" "field_separator")
    by discriminate.
  assert (E : dict_get (delete "compression" file) "compression" = PyNone)
    by (unfold dict_get; rewrite lookup_delete_eq; reflexivity).
  rewrite E. reflexivity.
Qed.

Lemma load_json_unsupported :
  load_json urlparse fetch ijson_parse file =
  reported c (load_json urlparse fetch ijson_parse (delete "compression" file)).
Proof.
  unfold load_json.
  match goal with |- context [bind (get_params file) ?k] => set (K := k) end.
  destruct get_params_unsupported as [-> Ec]. rewrite get_params_undeclared.
  rewrite !bind_pair.
  set (p1 := resolved file u q) in *.
  set (p2 := Params _ _ _ _ _ _).
  assert (E : K p1 = K p2).
  { subst K. cbv beta. rewrite Ec.
    rewrite (file_handle_unsupported (p_url p1) c Hbad).
    change (p_url p2) with (p_url p1).
    change (p_compression p2) with (PyStr "none").
    destruct (file_handle urlparse fetch (p_url p1) (PyStr "none"))
      as [t [lines|e]]; [|reflexivity].
    rewrite !bind_pair.
    rewrite (json_loop_ext p1 p2) by reflexivity. reflexivity. }
  rewrite E. unfold with_session, reported.
  destruct (K p2) as [t r]. reflexivity.
Qed.

Lemma load_csv_unsupported :
  load_csv urlparse fetch tokenize file =
  reported c (load_csv urlparse fetch tokenize (delete "compression" file)).
Proof.
  unfold load_csv.
  match goal with |- context [bind (get_params file) ?k] => set (K := k) end.
  destruct get_params_unsupported as [-> Ec]. rewrite get_params_undeclared.
  rewrite !bind_pair.
  set (p1 := resolved file u q) in *.
  set (p2 := Params _ _ _ _ _ _).
  assert (E : K p1 = K p2).
  { subst K. cbv beta. rewrite Ec.
    rewrite (file_handle_unsupported (p_url p1) c Hbad).
    change (p_url p2) with (p_url p1).
    change (p_compression p2) with (PyStr "none").
    destruct (file_handle urlparse fetch (p_url p1) (PyStr "none"))
      as [t [lines|e]]; [|reflexivity].
    rewrite !bind_pair.
    destruct (unsupported_not_gzip_zip c Hbad) as [_ ->].
    change (p_field_sep p2) with (p_field_sep p1).
    destruct (as_str (p_field_sep p1)) as [t1 [sep|e]]; [|reflexivity].
    rewrite !bind_pair.
    change (p_skip_records p2) with (p_skip_records p1).
    change (p_chunk_size p2) with (p_chunk_size p1).
    destruct (lift (read_csv _ _ _ _ _ _)) as [t2 [[row_chunks stop]|e]];
      [|reflexivity].
    rewrite !bind_pair. cbn [fst snd].
    rewrite (csv_loop_ext p1 p2) by reflexivity. reflexivity. }
  rewrite E. unfold with_session, reported.
  destruct (K p2) as [t r]. reflexivity.
Qed.

End Compression_facts.

(** C8 as amended.  For a FileSpec whose declared compression is truthy
    and is none of ['gzip'], ['zip'], ['none']: [get_params] prints the
    report and returns the parameter set with the value as declared (it
    does not raise); [file_handle] reaches for it the opener it reaches
    for ['none']; and each reader does for the file what it does for the
    same FileSpec without the compression entry, but for the report. *)
Theorem C8_unsupported_compression
        (urlparse : string -> parsed_url)
        (fetch : handle -> option (list string))
        (tokenize : tokenizer)
        (ijson_parse : list string -> stream (string * token))
        (file : filespec) (u q c : pyval) :
  file !! "url" = Some u -> file !! "cql" = Some q ->
  file !! "compression" = Some c ->
  truthy c = true -> supported_compression c = false ->
  get_params file =
    ([Print (MsgUnsupportedCompression c)], Ok (resolved file u q)) /\
  p_compression (resolved file u q) = c /\
  (forall url, file_handle urlparse fetch url c =
               file_handle urlparse fetch url (PyStr "none")) /\
  load_json urlparse fetch ijson_parse file =
    reported c (load_json urlparse fetch ijson_parse
                          (delete "compression" file)) /\
  load_csv urlparse fetch tokenize file =
    reported c (load_csv urlparse fetch tokenize (delete "compression" file)).
Proof.
  intros Hu Hq Hc Ht Hbad.
  destruct (get_params_unsupported file u q c Hu Hq Hc Ht Hbad) as [E1 E2].
  split; [exact E1|]. split; [exact E2|]. split; [|split].
  - intros url. apply file_handle_unsupported. exact Hbad.
  - exact (load_json_unsupported urlparse fetch ijson_parse file u q c
             Hu Hq Hc Ht Hbad).
  - exact (load_csv_unsupported urlparse fetch tokenize file u q c
             Hu Hq Hc Ht Hbad).
Qed.

Lemma C8_unsupported_compression_witness :
  get_params file_compression_bz2 =
    ([Print (MsgUnsupportedCompression (PyStr "bz2"))],
     Ok (resolved file_compression_bz2 (PyStr "people.csv")
                  (PyStr "UNWIND $dict.rows AS row"))).
Proof.
  refine (proj1 (C8_unsupported_compression plain_urlparse (serve [])
                   line_tokenize (give_events []) file_compression_bz2
                   (PyStr "people.csv") (PyStr "UNWIND $dict.rows AS row")
                   (PyStr "bz2") _ _ _ _ _));
    vm_compute; reflexivity.
Defined.

(** C8 as stated fails: the value [False] (what YAML reads [no] or [off]
    as) is outside the supported set, and nothing is reported for it: it
    is replaced by ['none']. *)
Lemma C8_falsy_compression_not_reported :
  file_compression_no !! "compression" = Some (PyBool false) /\
  supported_compression (PyBool false) = false /\
  get_params file_compression_no =
    ([], Ok (Params (PyInt 0) (PyStr "none") (PyStr "people.csv")
                    (PyStr "UNWIND $dict.rows AS row") (PyInt 1000)
                    (PyStr ","))).
Proof. repeat split; vm_compute; reflexivity. Qed.

(* ===================================================================== *)
(** ** Numbers in JSON                                                     *)
(* ===================================================================== *)

(** After [ijson_decimal_as_float] the value of every ['number'] event is
    a [str]: the text of the number. *)
Lemma number_events_are_str (events : stream (string * token)) :
  Forall (fun ev : pyevent =>
            ev.1.2 = "number" -> exists s, ev.2 = PyStr s)
         (fst (ijson_decimal_as_float events)).
Proof.
  destruct events as [evs stop]. simpl.
  induction evs as [|[prefix tok] evs IH]; simpl; constructor; try exact IH.
  destruct tok; simpl; intros H; try discriminate H.
  eexists. reflexivity.
Qed.

(** C1, at the input [[{"x": 3.14000000000000012}]].  The record that
    [load_json] submits holds under ["x"] the string
    ["3.14000000000000012"], all the digits of the literal, where the
    property asks for the double nearest to it. *)
Theorem C1_number_exposed_as_decimal_string :
  sample_load_file [] events_literal_pi file_json =
    ([Print (MsgProgress "Reading file:" "'data.json'");
      SessionOpen;
      StreamOpen (SmartOpen (PathName "data.json"));
      Print (MsgChunk (PyStr "data.json") 0);
      Run (PyStr "UNWIND $dict.rows AS row")
          [PyDict [("x", PyStr "3.14000000000000012")]];
      SessionClose;
      Print (MsgProgress "Completed file:" "'data.json'")],
     Ok tt) /\
  is_float (PyStr "3.14000000000000012") = false /\
  PyStr "3.14000000000000012" <> PyFloat double_nearest_literal_pi.
Proof.
  split; [vm_compute; reflexivity|]. split; [reflexivity|discriminate].
Qed.

(* ===================================================================== *)
(** ** Chunking                                                            *)
(* ===================================================================== *)

Section Chunks.

Context {A : Type}.
Local Open Scope nat_scope.

Lemma chunk_rows_spec (c : nat) (rows : list A) :
  0 < c ->
  forall cur, length cur < c ->
    chunk_shape c (chunk_rows c rows cur) /\
    concat (chunk_rows c rows cur) = cur ++ rows.
Proof.
  intros Hc. induction rows as [|r rows IH]; intros cur Hcur; simpl.
  - destruct cur as [|x cur].
    + split; [|reflexivity]. exists [], []. repeat split; auto.
    + split; [|simpl; rewrite !app_nil_r; reflexivity].
      exists [], [x :: cur]. repeat split; auto.
      right. exists (x :: cur). split; [reflexivity|]. simpl in *. lia.
  - destruct (Nat.eqb_spec (length (cur ++ [r])) c) as [E|E].
    + destruct (IH [] Hc) as [(fulls & rest & E1 & Hf & Hr) E2].
      split.
      * exists ((cur ++ [r]) :: fulls), rest. rewrite E1.
        repeat split; auto.
      * simpl. rewrite E2. simpl. rewrite <- app_assoc. reflexivity.
    + assert (Hlt : length (cur ++ [r]) < c)
        by (rewrite length_app in *; simpl in *; lia).
      destruct (IH (cur ++ [r]) Hlt) as [Hs E2].
      split; [exact Hs|]. rewrite E2, <- app_assoc. reflexivity.
Qed.

Lemma length_concat_full (c : nat) (fulls : list (list A)) :
  Forall (fun b => length b = c) fulls ->
  length (concat fulls) = c * length fulls.
Proof.
  induction 1 as [|b fulls Hb _ IH]; simpl; [lia|].
  rewrite length_app, IH, Hb. lia.
Qed.

Lemma chunk_shape_sizes (c : nat) (bs : list (list A)) :
  0 < c -> chunk_shape c bs -> batch_sizes c (length (concat bs)) bs.
Proof.
  intros Hc (fulls & rest & -> & Hf & Hr).
  rewrite concat_app, length_app, (length_concat_full c fulls Hf).
  set (m := length fulls).
  destruct Hr as [->|(b & -> & Hb)].
  - simpl. rewrite !app_nil_r, Nat.add_0_r.
    assert (Hmod : (c * m) mod c = 0)
      by (rewrite Nat.mul_comm; apply Nat.Div0.mod_mul).
    repeat split.
    + unfold ceil_div. fold m.
      apply (Nat.div_unique _ _ _ (c - 1)); lia.
    + intros i b Hi _. exact (proj1 (Forall_lookup _ _) Hf i b Hi).
    + intros b Hb. rewrite Hmod. simpl.
      apply last_Some_elem_of in Hb.
      exact (proj1 (Forall_forall _ _) Hf b Hb).
  - simpl. rewrite app_nil_r.
    assert (Hmod : (c * m + length b) mod c = length b).
    { symmetry. apply (Nat.mod_unique _ _ m); lia. }
    repeat split.
    + unfold ceil_div. rewrite length_app. simpl. fold m.
      apply (Nat.div_unique _ _ _ (length b - 1)); lia.
    + intros i b' Hi Hlast. rewrite length_app in Hlast. simpl in Hlast.
      rewrite lookup_app_l in Hi by (fold m; lia).
      exact (proj1 (Forall_lookup _ _) Hf i b' Hi).
    + intros b' Hb'. rewrite last_snoc in Hb'. injection Hb' as <-.
      rewrite Hmod. destruct (Nat.eqb_spec (length b) 0); lia.
Qed.

(** Chunks of [c] out of [rows]: their sizes are the ones of the
    specification, and together they are [rows]. *)
Lemma chunk_rows_sizes (c : nat) (rows : list A) :
  0 < c ->
  batch_sizes c (length rows) (chunk_rows c rows []) /\
  concat (chunk_rows c rows []) = rows.
Proof.
  intros Hc. destruct (chunk_rows_spec c rows Hc [] Hc) as [Hs E].
  split; [|exact E].
  pose proof (chunk_shape_sizes c _ Hc Hs) as H. rewrite E in H. exact H.
Qed.

End Chunks.

(* ===================================================================== *)
(** ** The JSON reader                                                     *)
(* ===================================================================== *)

Section Json_loop_facts.

Variables (p : params) (k c : nat).
Hypothesis Hskip : p_skip_records p = PyInt (Z.of_nat k).
Hypothesis Hchunk : p_chunk_size p = PyInt (Z.of_nat c).
Hypothesis Hc : (0 < c)%nat.

(** The loop over items none of which is [None], from the state
    [rec_num = r], [rows]: it ends normally, and the batches it submits,
    with the rows it leaves, are the chunks of the items past the first
    [k - r], filled up from [rows]. *)
Lemma json_loop_batches (items : list pyval) :
  Forall (fun v => is_none v = false) items ->
  forall (r : nat) (chunk_num : Z) (rows : list pyval),
    (length rows < c)%nat ->
    exists t chunk_num' rows',
      json_loop p items None (Z.of_nat r) chunk_num rows =
        (t, Ok (chunk_num', rows')) /\
      batches t ++ flush rows' = chunk_rows c (drop (k - r) items) rows.
Proof.
  induction 1 as [|row items Hrow _ IH]; intros r chunk_num rows Hrows.
  - exists [], chunk_num, rows. split; [reflexivity|].
    rewrite drop_nil. destruct rows; reflexivity.
  - cbn [json_loop]. rewrite Hrow, Hskip, Hchunk.
    replace (Z.of_nat r + 1) with (Z.of_nat (S r)) by lia.
    unfold int_gt, int_eq. cbn [number_value lift].
    rewrite bind_lift_ok.
    destruct (Z.ltb_spec (Z.of_nat k) (Z.of_nat (S r) * 1)) as [Hk|Hk].
    + replace (k - r)%nat with 0%nat by lia. rewrite drop_0.
      cbn [chunk_rows].
      destruct (Nat.eqb_spec (length (rows ++ [row])) c) as [E|E].
      * destruct (Z.eqb_spec (Z.of_nat (length (rows ++ [row])) * 1)
                             (Z.of_nat c)) as [_|E']; [|lia].
        destruct (IH (S r) (chunk_num + 1) [] Hc)
          as (t & n' & rows' & Hrun & Hb).
        replace (k - S r)%nat with 0%nat in Hb by lia. rewrite drop_0 in Hb.
        rewrite !bind_emit, Hrun. cbn [trace outcome fst snd].
        eexists _, n', rows'. split; [reflexivity|].
        cbn [batches app]. rewrite Hb. reflexivity.
      * destruct (Z.eqb_spec (Z.of_nat (length (rows ++ [row])) * 1)
                             (Z.of_nat c)) as [E'|_]; [lia|].
        assert (Hlt : (length (rows ++ [row]) < c)%nat)
          by (rewrite length_app in *; simpl in *; lia).
        destruct (IH (S r) chunk_num (rows ++ [row]) Hlt)
          as (t & n' & rows' & Hrun & Hb).
        replace (k - S r)%nat with 0%nat in Hb by lia. rewrite drop_0 in Hb.
        exists t, n', rows'. split; assumption.
    + destruct (IH (S r) chunk_num rows Hrows)
        as (t & n' & rows' & Hrun & Hb).
      exists t, n', rows'. split; [exact Hrun|].
      replace (k - r)%nat with (S (k - S r)) by lia. exact Hb.
Qed.

End Json_loop_facts.

Lemma batches_compression_report (c : pyval) :
  batches (compression_report c) = [].
Proof. unfold compression_report. destruct (supported_compression c); reflexivity. Qed.

Lemma trace_with_session {A} (m : M A) :
  trace (with_session m) = SessionOpen :: trace m ++ [SessionClose].
Proof. destruct m; reflexivity. Qed.

Lemma outcome_with_session {A} (m : M A) :
  outcome (with_session m) = outcome m.
Proof. destruct m; reflexivity. Qed.

Lemma batches_with_session {A} (m : M A) :
  batches (trace (with_session m)) = batches (trace m).
Proof.
  rewrite trace_with_session. cbn [batches]. rewrite batches_app.
  simpl. apply app_nil_r.
Qed.

Section Json_reader_facts.

Variable urlparse : string -> parsed_url.
Variable fetch : handle -> option (list string).
Variable ijson_parse : list string -> stream (string * token).

Variables (file : filespec) (u q : pyval) (k c : nat).
Variables (h : handle) (lines : list string) (items : list pyval).

Hypothesis Hu : file !! "url" = Some u.
Hypothesis Hq : file !! "cql" = Some q.
Hypothesis Hskip :
  py_or (dict_get file "skip_records") (PyInt 0) = PyInt (Z.of_nat k).
Hypothesis Hchunk :
  py_or (dict_get file "chunk_size") (PyInt 1000) = PyInt (Z.of_nat c).
Hypothesis Hc : (0 < c)%nat.
Hypothesis Hopen :
  file_handle urlparse fetch u
              (py_or (dict_get file "compression") (PyStr "none")) =
    ([StreamOpen h], Ok lines).
Hypothesis Hitems :
  ijson_items (ijson_decimal_as_float (ijson_parse lines)) "item" =
    (items, None).
Hypothesis Hnone : Forall (fun v => is_none v = false) items.

(** The batches of [load_json] are the chunks of the items past the first
    [k]. *)
Lemma load_json_batches :
  outcome (load_json urlparse fetch ijson_parse file) = Ok tt /\
  batches (trace (load_json urlparse fetch ijson_parse file)) =
    chunk_rows c (drop k items) [].
Proof.
  unfold load_json.
  rewrite outcome_with_session, batches_with_session.
  rewrite (get_params_ok file u q Hu Hq), bind_pair.
  cbn [resolved p_url p_compression]. rewrite Hopen, bind_pair, Hitems.
  cbn [fst snd].
  destruct (json_loop_batches (resolved file u q) k c Hskip Hchunk Hc
              items Hnone 0 0 [] Hc) as (t & n' & rows' & Hrun & Hb).
  change (Z.of_nat 0) with 0 in Hrun. rewrite Hrun, bind_pair.
  rewrite Nat.sub_0_r in Hb. rewrite <- Hb.
  cbn [trace outcome fst snd].
  rewrite !batches_app, batches_compression_report.
  destruct rows' as [|x rows']; simpl.
  - split; [reflexivity|]. reflexivity.
  - split; reflexivity.
Qed.

End Json_reader_facts.

(* ===================================================================== *)
(** ** The CSV reader                                                      *)
(* ===================================================================== *)

(** The record of a kept line: a cell for every name, the missing ones
    empty. *)
Lemma fillna_frame_row (names fields : list string) :
  (length fields <= length names)%nat ->
  fillna_record (frame_row names fields) = padded_record names fields.
Proof.
  unfold fillna_record, padded_record. intros Hlen. f_equal.
  revert fields Hlen.
  induction names as [|n names IH]; intros fields Hlen.
  - destruct fields; [reflexivity|simpl in Hlen; lia].
  - destruct fields as [|f fields]; simpl.
    + f_equal. rewrite (IH [] ltac:(simpl; lia)). simpl.
      rewrite Nat.sub_0_r. reflexivity.
    + f_equal. apply IH. simpl in Hlen. lia.
Qed.

Lemma get_params_inv (file : filespec) (p : params) :
  outcome (get_params file) = Ok p ->
  exists u q,
    file !! "url" = Some u /\ file !! "cql" = Some q /\ p = resolved file u q.
Proof.
  destruct (file !! "url") as [u|] eqn:Eu.
  - destruct (file !! "cql") as [q|] eqn:Eq.
    + rewrite (get_params_ok file u q Eu Eq). simpl. intros [= <-].
      exists u, q. repeat split.
    + unfold get_params, dict_item. rewrite Eu, Eq.
      destruct (negb _); simpl; discriminate.
  - unfold get_params, dict_item. rewrite Eu.
    destruct (negb _); simpl; discriminate.
Qed.

Lemma csv_loop_run (p : params) (row_chunks : list frame) (stop : option exn) :
  outcome (csv_loop p row_chunks stop) =
    match stop with
    | Some e => Raise e
    | None => Ok tt
    end /\
  batches (trace (csv_loop p row_chunks stop)) = map to_records row_chunks.
Proof.
  induction row_chunks as [|rows cs [IHo IHb]].
  - destruct stop; split; reflexivity.
  - cbn [csv_loop]. rewrite bind_emit. cbn [trace outcome fst snd batches map].
    split; [exact IHo|]. f_equal. exact IHb.
Qed.

Lemma chunk_rows_nonempty {A} (c : nat) (rows cur : list A) :
  chunk_rows c rows cur = [] -> rows = [] /\ cur = [].
Proof.
  revert cur. induction rows as [|r rows IH]; intros cur; cbn [chunk_rows].
  - destruct cur; [split; reflexivity|discriminate].
  - destruct (length (cur ++ [r]) =? c)%nat; [discriminate|].
    intros E. destruct (IH _ E) as [_ E']. destruct cur; discriminate E'.
Qed.

Lemma chunk_rows_map {A B} (g : A -> B) (c : nat) (rows cur : list A) :
  map (map g) (chunk_rows c rows cur) = chunk_rows c (map g rows) (map g cur).
Proof.
  revert cur. induction rows as [|r rows IH]; intros cur; cbn [chunk_rows map].
  - destruct cur; reflexivity.
  - replace (map g cur ++ [g r]) with (map g (cur ++ [r]))
      by (rewrite List.map_app; reflexivity).
    rewrite length_map.
    destruct (length (cur ++ [r]) =? c)%nat; cbn [map]; rewrite IH; reflexivity.
Qed.

Lemma int64_of_nat (n : nat) :
  Z.of_nat n < 2 ^ 63 -> int64 (Z.of_nat n) = Ok (Z.of_nat n).
Proof.
  intros H. unfold int64.
  destruct (Z.leb_spec (- 2 ^ 63) (Z.of_nat n)) as [_|H']; [|lia].
  destruct (Z.ltb_spec (Z.of_nat n) (2 ^ 63)) as [_|H']; [reflexivity|lia].
Qed.

Section Tokenizer_facts.

Variable tokenize : tokenizer.
Variables (sep : string) (names : list string) (c : nat).

Lemma expected_fields_names (fields : list string) :
  (length names <= expected_fields tokenize names fields)%nat.
Proof. unfold expected_fields. destruct (first_row_widens tokenize); lia. Qed.


Lemma data_rows_widths (lines : list string) (rows : list (list string)) :
  data_rows tokenize sep names lines rows ->
  Forall (fun fields => (length fields <= length names)%nat) rows.
Proof. induction 1; [constructor|assumption|constructor; assumption]. Qed.

Lemma data_rows_tokenized (lines : list string) (rows : list (list string)) :
  data_rows tokenize sep names lines rows ->
  Forall (fun line => exists r, fields_of tokenize sep line = Ok r) lines.
Proof. induction 1; constructor; eauto. Qed.

(** On data rows and blank lines no line is dropped: the buffers are the
    rows in chunks of [c]. *)
Lemma tokenize_rows_data (lines : list string) (rows : list (list string)) :
  data_rows tokenize sep names lines rows ->
  forall expected buffered,
    (forall w, expected = Some w -> (length names <= w)%nat) ->
    tokenize_rows tokenize sep names c expected lines buffered =
      (chunk_rows c rows buffered, None).
Proof.
  induction 1 as [|line lines rows Hblank _ IH
                  |line fields lines rows Hrow Hlen _ IH];
    intros expected buffered Hw; cbn [tokenize_rows chunk_rows].
  - reflexivity.
  - rewrite Hblank. apply IH. exact Hw.
  - rewrite Hrow.
    set (width := default (expected_fields tokenize names fields) expected).
    assert (Hwidth : (length names <= width)%nat).
    { unfold width. destruct expected as [w|]; cbn [default].
      - apply Hw. reflexivity.
      - apply expected_fields_names. }
    assert (Hgood : bad_line width buffered fields = false).
    { unfold bad_line. destruct buffered; [reflexivity|].
      apply Nat.ltb_ge. lia. }
    rewrite Hgood.
    assert (Hw' : forall w, Some width = Some w -> (length names <= w)%nat)
      by (intros w [= <-]; exact Hwidth).
    destruct (length (buffered ++ [fields]) =? c)%nat.
    + rewrite (IH (Some width) [] Hw'). reflexivity.
    + apply IH. exact Hw'.
Qed.

Lemma reader_chunks_data (lines : list string) (rows : list (list string)) :
  data_rows tokenize sep names lines rows ->
  reader_chunks tokenize sep names c lines =
    (match rows with
     | [] => [[]]
     | _ => chunk_rows c rows []
     end, None).
Proof.
  intros H. unfold reader_chunks.
  rewrite (tokenize_rows_data lines rows H None []) by discriminate.
  destruct rows as [|r rows]; [reflexivity|].
  destruct (chunk_rows c (r :: rows) []) eqn:E; [|reflexivity].
  apply chunk_rows_nonempty in E. destruct E as [E _]. discriminate E.
Qed.

(** Where the tokenizer raises no error, the reader ends without one,
    whatever the number of fields of the lines. *)
Lemma tokenize_rows_total (lines : list string) :
  Forall (fun line => exists r, fields_of tokenize sep line = Ok r) lines ->
  forall expected buffered,
    snd (tokenize_rows tokenize sep names c expected lines buffered) = None.
Proof.
  induction 1 as [|line lines [r Hr] _ IH]; intros expected buffered;
    cbn [tokenize_rows].
  - reflexivity.
  - rewrite Hr. destruct r as [fields|]; [|apply IH].
    destruct (bad_line _ buffered fields); [apply IH|].
    destruct (length (buffered ++ [fields]) =? c)%nat; [|apply IH].
    match goal with
    | |- context [tokenize_rows ?t ?s ?n ?k ?e lines []] =>
        pose proof (IH e []) as E;
        destruct (tokenize_rows t s n k e lines []) as [chunks stop]
    end.
    exact E.
Qed.

Lemma reader_chunks_total (lines : list string) :
  Forall (fun line => exists r, fields_of tokenize sep line = Ok r) lines ->
  snd (reader_chunks tokenize sep names c lines) = None.
Proof.
  intros H. unfold reader_chunks.
  pose proof (tokenize_rows_total lines H None []) as E.
  destruct (tokenize_rows tokenize sep names c None lines [])
    as [[|chunk chunks] [e|]]; cbn [snd] in *; congruence.
Qed.

(** The call of [load_csv], with a number of lines to skip, a chunk size
    and a separator that the parser takes. *)
Lemma read_csv_int (lines : list string) (k : nat) :
  (0 < c)%nat -> Z.of_nat c < 2 ^ 63 -> Z.of_nat k < 2 ^ 63 ->
  has_duplicates names = false -> one_char_separator sep = true ->
  read_csv tokenize lines sep (PyInt (Z.of_nat k)) names (PyInt (Z.of_nat c)) =
    Ok (map (map (frame_row names))
            (fst (reader_chunks tokenize sep names c (drop k lines))),
        snd (reader_chunks tokenize sep names c (drop k lines))).
Proof.
  intros Hc Hc64 Hk64 Hdup Hsep.
  apply andb_true_iff in Hsep. destruct Hsep as [Hlen Hnl].
  apply Nat.eqb_eq in Hlen. apply negb_true_iff in Hnl.
  unfold read_csv, line_end_refused. rewrite Hnl.
  cbn [andb validate_chunksize].
  destruct (Z.ltb_spec (Z.of_nat c) 1) as [H|_]; [lia|].
  rewrite Hdup. unfold c_engine_separator. rewrite Hlen.
  cbn [Nat.leb orb negb skip_rows].
  destruct (Z.eqb_spec (Z.of_nat c) 0) as [H|_]; [lia|].
  destruct (Z.ltb_spec (Z.of_nat c) 0) as [H|_]; [lia|].
  rewrite !int64_of_nat, !Nat2Z.id by assumption.
  destruct (reader_chunks tokenize sep names c (drop k lines)); reflexivity.
Qed.


End Tokenizer_facts.

Section Csv_reader_facts.

Variable urlparse : string -> parsed_url.
Variable fetch : handle -> option (list string).
Variable tokenize : tokenizer.

Variables (file : filespec) (p : params) (sep : string).
Variables (h : handle) (header : string) (data : list string).

Hypothesis Hp : outcome (get_params file) = Ok p.
Hypothesis Hsep : p_field_sep p = PyStr sep.
Hypothesis Hopen :
  file_handle urlparse fetch (p_url p) (p_compression p) =
    ([StreamOpen h], Ok (header :: data)).

(** [load_csv] in terms of the reader, once the parameters are resolved
    and the stream is open: it ends as the reader does, and its batches
    are the frames of the reader, as records. *)
Lemma load_csv_run :
  outcome (load_csv urlparse fetch tokenize file) =
    match read_csv tokenize data sep (p_skip_records p)
                   (py_split sep (py_strip header)) (p_chunk_size p) with
    | Ok (_, None) => Ok tt
    | Ok (_, Some e) => Raise e
    | Raise e => Raise e
    end /\
  batches (trace (load_csv urlparse fetch tokenize file)) =
    match read_csv tokenize data sep (p_skip_records p)
                   (py_split sep (py_strip header)) (p_chunk_size p) with
    | Ok (frames, _) => map to_records frames
    | Raise _ => []
    end.
Proof.
  destruct (get_params_inv file p Hp) as (u & q & Hu & Hq & ->).
  unfold load_csv.
  rewrite outcome_with_session, batches_with_session.
  rewrite (get_params_ok file u q Hu Hq), bind_pair.
  rewrite Hopen, bind_pair, Hsep.
  unfold as_str. rewrite bind_ret_l. cbn [List.hd List.tl].
  assert (Eh : (if is_str "zip" (p_compression (resolved file u q))
                then decode_utf8 header else str_text header) = header)
    by (destruct (is_str "zip" _); reflexivity).
  rewrite Eh.
  destruct (read_csv tokenize data sep _ _ _) as [[frames stop]|e].
  - rewrite bind_lift_ok. cbn [fst snd].
    destruct (csv_loop_run (resolved file u q) frames stop) as [Ho Hb].
    cbn [trace outcome fst snd].
    rewrite !batches_app, batches_compression_report, Ho, Hb.
    destruct stop; split; reflexivity.
  - unfold bind, lift. cbn [trace outcome fst snd].
    rewrite !batches_app, batches_compression_report.
    split; reflexivity.
Qed.

Variables (k c : nat).
Hypothesis Hskip : p_skip_records p = PyInt (Z.of_nat k).
Hypothesis Hchunk : p_chunk_size p = PyInt (Z.of_nat c).
Hypothesis Hc : (1 <= c)%nat.
Hypothesis Hc64 : Z.of_nat c < 2 ^ 63.
Hypothesis Hk64 : Z.of_nat k < 2 ^ 63.
Hypothesis Hsep1 : one_char_separator sep = true.
Hypothesis Hnames : has_duplicates (py_split sep (py_strip header)) = false.

(** Lines with any number of fields: the reader ends normally. *)
Lemma load_csv_ends :
  Forall (fun line => exists r, fields_of tokenize sep line = Ok r)
         (drop k data) ->
  outcome (load_csv urlparse fetch tokenize file) = Ok tt.
Proof.
  intros Htok. rewrite (proj1 load_csv_run), Hskip, Hchunk.
  rewrite read_csv_int by assumption.
  rewrite (reader_chunks_total tokenize sep _ c _ Htok). reflexivity.
Qed.

(** Data rows and blank lines after the skipped lines: the batches are
    the records of the rows, in chunks of [c]. *)
Lemma load_csv_batches (rows : list (list string)) :
  data_rows tokenize sep (py_split sep (py_strip header)) (drop k data) rows ->
  outcome (load_csv urlparse fetch tokenize file) = Ok tt /\
  batches (trace (load_csv urlparse fetch tokenize file)) =
    match rows with
    | [] => [[]]
    | _ =>
        chunk_rows c (map (padded_record (py_split sep (py_strip header))) rows)
                   []
    end.
Proof.
  intros Hrows.
  split; [apply load_csv_ends; exact (data_rows_tokenized _ _ _ _ _ Hrows)|].
  rewrite (proj2 load_csv_run), Hskip, Hchunk.
  rewrite read_csv_int by assumption.
  rewrite (reader_chunks_data tokenize sep _ c _ rows Hrows). cbn [fst].
  destruct rows as [|r rows]; [reflexivity|].
  change to_records with (map fillna_record).
  rewrite (chunk_rows_map (frame_row (py_split sep (py_strip header)))).
  rewrite (chunk_rows_map fillna_record).
  replace (map fillna_record
             (map (frame_row (py_split sep (py_strip header))) (r :: rows)))
    with (map (padded_record (py_split sep (py_strip header))) (r :: rows));
    [reflexivity|].
  rewrite List.map_map. symmetry. apply map_ext_Forall.
  eapply Forall_impl; [exact (data_rows_widths _ _ _ _ _ Hrows)|].
  intros fields Hlen. cbn beta. apply fillna_frame_row. exact Hlen.
Qed.

End Csv_reader_facts.

(* ===================================================================== *)
(** ** Skipped records                                                     *)
(* ===================================================================== *)




(* ===================================================================== *)
(** ** Batch sizes                                                         *)
(* ===================================================================== *)

(** The JSON reader, for every number of surviving records: the batches
    have the sizes of the specification. *)
Lemma load_json_batch_sizes
      (urlparse : string -> parsed_url)
      (fetch : handle -> option (list string))
      (ijson_parse : list string -> stream (string * token))
      (file : filespec) (p : params) (k c : nat)
      (h : handle) (lines : list string) (items : list pyval) :
  outcome (get_params file) = Ok p ->
  p_skip_records p = PyInt (Z.of_nat k) ->
  p_chunk_size p = PyInt (Z.of_nat c) -> (1 <= c)%nat ->
  file_handle urlparse fetch (p_url p) (p_compression p) =
    ([StreamOpen h], Ok lines) ->
  ijson_items (ijson_decimal_as_float (ijson_parse lines)) "item" =
    (items, None) ->
  Forall (fun v => is_none v = false) items ->
  batch_sizes c (length (drop k items))
              (batches (trace (load_json urlparse fetch ijson_parse file))).
Proof.
  intros Hp Hskip Hchunk Hc Hopen Hitems Hnone.
  destruct (get_params_inv file p Hp) as (u & q & Hu & Hq & ->).
  destruct (load_json_batches urlparse fetch ijson_parse file u q k c
              h lines items Hu Hq Hskip Hchunk Hc Hopen Hitems Hnone)
    as [_ ->].
  apply (chunk_rows_sizes c (drop k items) Hc).
Qed.

(** The CSV reader, when the lines after the skipped ones hold at least
    one data row (no row with more fields than the header, blank lines
    anywhere): the batches have the sizes of the specification, for the
    number of rows. *)
Lemma load_csv_batch_sizes
      (urlparse : string -> parsed_url)
      (fetch : handle -> option (list string))
      (tokenize : tokenizer)
      (file : filespec) (p : params) (k c : nat) (sep : string)
      (h : handle) (header : string) (data : list string)
      (rows : list (list string)) :
  outcome (get_params file) = Ok p ->
  p_skip_records p = PyInt (Z.of_nat k) -> Z.of_nat k < 2 ^ 63 ->
  p_chunk_size p = PyInt (Z.of_nat c) ->
  (1 <= c)%nat -> Z.of_nat c < 2 ^ 63 ->
  p_field_sep p = PyStr sep -> one_char_separator sep = true ->
  file_handle urlparse fetch (p_url p) (p_compression p) =
    ([StreamOpen h], Ok (header :: data)) ->
  has_duplicates (py_split sep (py_strip header)) = false ->
  data_rows tokenize sep (py_split sep (py_strip header)) (drop k data) rows ->
  rows <> [] ->
  batch_sizes c (length rows)
    (batches (trace (load_csv urlparse fetch tokenize file))).
Proof.
  intros Hp Hskip Hk64 Hchunk Hc Hc64 Hsep Hsep1 Hopen Hnames Hrows Hsome.
  destruct (load_csv_batches urlparse fetch tokenize file p sep h header
              data Hp Hsep Hopen k c Hskip Hchunk Hc Hc64 Hk64 Hsep1 Hnames
              rows Hrows) as [_ ->].
  destruct rows as [|r rows]; [congruence|].
  pose proof (proj1 (chunk_rows_sizes c
                       (map (padded_record (py_split sep (py_strip header)))
                            (r :: rows)) Hc)) as S.
  rewrite length_map in S. exact S.
Qed.

(** C4, at a CSV stream with no data row and the chunk size 2.  No
    record survives, so that [ceil(0 / 2) = 0] batches are due, as the
    JSON reader has it on [[]]; the CSV reader submits one batch, which
    is empty. *)
Theorem C4_csv_without_rows_submits_empty_batch :
  sample_load_file lines_header_only [] file_sized =
    ([Print (MsgProgress "Reading file:" "'people.csv'");
      SessionOpen;
      StreamOpen (SmartOpen (PathName "people.csv"));
      Run (PyStr "UNWIND $dict.rows AS row") [];
      SessionClose;
      Print (MsgProgress "Completed file:" "'people.csv'")],
     Ok tt) /\
  batches (trace (load_csv plain_urlparse (serve lines_header_only)
                           line_tokenize file_sized)) = [[]] /\
  ceil_div 0 2 = 0%nat /\
  ~ batch_sizes 2 0 (batches (trace (load_csv plain_urlparse
                                       (serve lines_header_only)
                                       line_tokenize file_sized))) /\
  batches (trace (load_json plain_urlparse (serve [])
                            (give_events events_empty_array) file_sized)) = [].
Proof.
  split; [vm_compute; reflexivity|].
  split; [vm_compute; reflexivity|].
  split; [reflexivity|].
  split; [|vm_compute; reflexivity].
  intros [H _]. vm_compute in H. discriminate H.
Qed.

(* ===================================================================== *)
(** ** Rows with a wrong number of fields                                  *)
(* ===================================================================== *)




(* ===================================================================== *)
(** ** Further properties: parameters and dispatch                         *)
(* ===================================================================== *)

(** [get_params] fails exactly when [url] or [cql] is missing, with the
    [KeyError] of [url] first; the report about the compression is
    printed before that, whether it then fails or not. *)
Theorem get_params_outcome (file : filespec) :
  trace (get_params file) =
    compression_report (py_or (dict_get file "compression") (PyStr "none")) /\
  outcome (get_params file) =
    match file !! "url", file !! "cql" with
    | None, _ => Raise (KeyError "url")
    | Some _, None => Raise (KeyError "cql")
    | Some u, Some q => Ok (resolved file u q)
    end.
Proof.
  unfold get_params, dict_item, compression_report.
  destruct (file !! "url") as [u|]; destruct (file !! "cql") as [q|];
    destruct (supported_compression _); split; reflexivity.
Qed.

(** A declared value that is truthy is returned as declared, and the
    resolved [chunk_size], [compression] and [field_sep] are never falsy;
    the resolved [skip_records] is truthy or the integer [0]. *)
Theorem get_params_keeps_truthy (file : filespec) (p : params) :
  outcome (get_params file) = Ok p ->
  (forall v, file !! "skip_records" = Some v -> truthy v = true ->
             p_skip_records p = v) /\
  (forall v, file !! "compression" = Some v -> truthy v = true ->
             p_compression p = v) /\
  (forall v, file !! "chunk_size" = Some v -> truthy v = true ->
             p_chunk_size p = v) /\
  (forall v, file !! "field_separator" = Some v -> truthy v = true ->
             p_field_sep p = v) /\
  truthy (p_chunk_size p) = true /\
  truthy (p_compression p) = true /\
  truthy (p_field_sep p) = true /\
  (truthy (p_skip_records p) = true \/ p_skip_records p = PyInt 0).
Proof.
  intros Hp. destruct (get_params_inv file p Hp) as (u & q & _ & _ & ->).
  unfold resolved, py_or, dict_get; simpl.
  repeat split.
  - intros v -> Hv. simpl. rewrite Hv. reflexivity.
  - intros v -> Hv. simpl. rewrite Hv. reflexivity.
  - intros v -> Hv. simpl. rewrite Hv. reflexivity.
  - intros v -> Hv. simpl. rewrite Hv. reflexivity.
  - destruct (truthy (default PyNone (file !! "chunk_size"))) eqn:E;
      [exact E|reflexivity].
  - destruct (truthy (default PyNone (file !! "compression"))) eqn:E;
      [exact E|reflexivity].
  - destruct (truthy (default PyNone (file !! "field_separator"))) eqn:E;
      [exact E|reflexivity].
  - destruct (truthy (default PyNone (file !! "skip_records"))) eqn:E;
      [left; exact E|right; reflexivity].
Qed.

Lemma get_params_keeps_truthy_witness :
  p_skip_records (resolved file_declared (PyStr "people.csv")
                           (PyStr "UNWIND $dict.rows AS row")) = PyInt 3 /\
  truthy (p_chunk_size (resolved file_declared (PyStr "people.csv")
                                 (PyStr "UNWIND $dict.rows AS row"))) = true.
Proof.
  assert (Hp : outcome (get_params file_declared) =
               Ok (resolved file_declared (PyStr "people.csv")
                            (PyStr "UNWIND $dict.rows AS row")))
    by (vm_compute; reflexivity).
  pose proof (get_params_keeps_truthy file_declared _ Hp)
    as (Hskip & _ & _ & _ & Hchunk & _).
  split; [|exact Hchunk].
  apply Hskip; vm_compute; reflexivity.
Defined.

(** A FileSpec without [url]: [load_file] raises [KeyError] and does
    nothing else, whether the file is to be skipped or not and whatever
    the readers are. *)
Theorem load_file_without_url
        (load_csv load_json : filespec -> M unit) (file : filespec) :
  file !! "url" = None ->
  load_file load_csv load_json file = ([], Raise (KeyError "url")).
Proof.
  intros Hu. unfold load_file, dict_item. rewrite Hu.
  destruct (truthy _); reflexivity.
Qed.

Lemma load_file_without_url_witness :
  load_file (probe CsvReader) (probe JsonReader) file_without_url =
    ([], Raise (KeyError "url")).
Proof.
  apply load_file_without_url. vm_compute; reflexivity.
Defined.

(** A [url] that is not a string: a file to be skipped is skipped all the
    same, with its line printed; a file to be read makes [load_file]
    raise [TypeError] before anything is printed or read. *)
Theorem load_file_url_not_str
        (load_csv load_json : filespec -> M unit) (file : filespec)
        (v : pyval) :
  file !! "url" = Some v -> (forall s, v <> PyStr s) ->
  load_file load_csv load_json file =
    if truthy (dict_get file "skip_file")
    then ([Print (MsgSkipping v)], Ok tt)
    else ([], Raise TypeError).
Proof.
  intros Hu Hv. unfold load_file, dict_item. rewrite truthy_or_false, Hu.
  destruct (truthy (dict_get file "skip_file")); [reflexivity|].
  rewrite bind_ret_l.
  destruct v; try reflexivity. exfalso. exact (Hv s eq_refl).
Qed.

Lemma load_file_url_not_str_witness :
  load_file (probe CsvReader) (probe JsonReader) file_numeric_url =
    ([], Raise TypeError).
Proof.
  refine (load_file_url_not_str (probe CsvReader) (probe JsonReader)
            file_numeric_url (PyInt 7) _ _).
  - vm_compute; reflexivity.
  - intros s. discriminate.
Defined.





(** A declared type that is falsy or is ['NA'] counts as no type: the
    reader is the one that the suffixes of the url select. *)
Theorem load_file_type_NA_is_sniffed
        (load_csv load_json : filespec -> M unit) (file : filespec)
        (u : string) :
  truthy (dict_get file "skip_file") = false ->
  file !! "url" = Some (PyStr u) ->
  truthy (dict_get file "type") = false \/ dict_get file "type" = PyStr "NA" ->
  load_file load_csv load_json file =
    framed u (run_reader load_csv load_json (sniffed_reader u) file).
Proof.
  intros Hskip Hu Ht.
  rewrite (load_file_running load_csv load_json file u Hskip Hu).
  cbv zeta.
  assert (E : py_or (dict_get file "type") (PyStr "NA") = PyStr "NA").
  { unfold py_or. destruct Ht as [->| ->]; reflexivity. }
  rewrite E. reflexivity.
Qed.

Lemma load_file_type_NA_is_sniffed_witness :
  load_file (probe CsvReader) (probe JsonReader) file_type_NA =
    framed "data.json" (probe JsonReader file_type_NA).
Proof.
  refine (load_file_type_NA_is_sniffed (probe CsvReader) (probe JsonReader)
            file_type_NA "data.json" _ _ _);
    try (vm_compute; reflexivity).
  right. vm_compute; reflexivity.
Defined.

(* ===================================================================== *)
(** ** Further properties: the readers when something fails                *)
(* ===================================================================== *)

(** When [get_params] raises (a FileSpec without [url] or [cql]), each
    reader opens its session, closes it and lets the exception through: no
    stream is opened and no batch is submitted. *)
Theorem readers_fail_before_opening
        (urlparse : string -> parsed_url)
        (fetch : handle -> option (list string))
        (tokenize : tokenizer)
        (ijson_parse : list string -> stream (string * token))
        (file : filespec) (e : exn) :
  outcome (get_params file) = Raise e ->
  load_json urlparse fetch ijson_parse file =
    (SessionOpen :: trace (get_params file) ++ [SessionClose], Raise e) /\
  load_csv urlparse fetch tokenize file =
    (SessionOpen :: trace (get_params file) ++ [SessionClose], Raise e).
Proof.
  intros H. unfold load_json, load_csv.
  destruct (get_params file) as [t [p|e']]; simpl in H; [discriminate|].
  injection H as ->. split; reflexivity.
Qed.

Lemma readers_fail_before_opening_witness :
  load_json plain_urlparse (serve []) (give_events events_one_object)
            file_without_url =
    ([SessionOpen; SessionClose], Raise (KeyError "url")).
Proof.
  refine (proj1 (readers_fail_before_opening plain_urlparse (serve [])
                   line_tokenize (give_events events_one_object)
                   file_without_url (KeyError "url") _)).
  vm_compute; reflexivity.
Defined.

Lemma open_stream_trace (fetch : handle -> option (list string))
      (h : handle) (e : exn) :
  exists r, open_stream fetch h e = ([StreamOpen h], r).
Proof.
  unfold open_stream. rewrite bind_emit.
  destruct (fetch h); eexists; reflexivity.
Qed.

(** [file_handle] attempts at most one opening, and returns only when
    it has attempted one. *)
Lemma file_handle_trace
      (urlparse : string -> parsed_url)
      (fetch : handle -> option (list string)) (url c : pyval) :
  (exists e, file_handle urlparse fetch url c = ([], Raise e)) \/
  (exists h r, file_handle urlparse fetch url c = ([StreamOpen h], r)).
Proof.
  unfold file_handle.
  destruct url;
    try (right; eexists; apply open_stream_trace);
    (destruct (truthy _); [left; eexists; reflexivity|]);
    (destruct (is_str "gzip" c); [right; eexists; eexists; reflexivity|]);
    (destruct (is_str "zip" c); [left; eexists; reflexivity|]);
    right; cbn [as_int];
    try (eexists; apply open_stream_trace);
    eexists; eexists; reflexivity.
Qed.

Lemma file_handle_submits_nothing
      (urlparse : string -> parsed_url)
      (fetch : handle -> option (list string)) (url c : pyval) :
  batches (trace (file_handle urlparse fetch url c)) = [].
Proof.
  destruct (file_handle_trace urlparse fetch url c) as [[e ->]|(h & r & ->)];
    reflexivity.
Qed.

(** When the stream cannot be opened ([file_handle] raises), each reader
    closes its session and lets the exception through; it has submitted
    no batch. *)
Theorem readers_fail_on_open
        (urlparse : string -> parsed_url)
        (fetch : handle -> option (list string))
        (tokenize : tokenizer)
        (ijson_parse : list string -> stream (string * token))
        (file : filespec) (p : params) (t : list effect) (e : exn) :
  outcome (get_params file) = Ok p ->
  file_handle urlparse fetch (p_url p) (p_compression p) = (t, Raise e) ->
  load_json urlparse fetch ijson_parse file =
    (SessionOpen :: (trace (get_params file) ++ t) ++ [SessionClose],
     Raise e) /\
  load_csv urlparse fetch tokenize file =
    (SessionOpen :: (trace (get_params file) ++ t) ++ [SessionClose],
     Raise e) /\
  batches (trace (load_json urlparse fetch ijson_parse file)) = [] /\
  batches (trace (load_csv urlparse fetch tokenize file)) = [].
Proof.
  intros Hp Hopen.
  assert (Ej : load_json urlparse fetch ijson_parse file =
               (SessionOpen :: (trace (get_params file) ++ t) ++ [SessionClose],
                Raise e)).
  { unfold load_json. destruct (get_params file) as [t0 [p0|e0]];
      simpl in Hp; [|discriminate]. injection Hp as ->.
    rewrite bind_pair, Hopen. reflexivity. }
  assert (Ec : load_csv urlparse fetch tokenize file =
               (SessionOpen :: (trace (get_params file) ++ t) ++ [SessionClose],
                Raise e)).
  { unfold load_csv. destruct (get_params file) as [t0 [p0|e0]];
      simpl in Hp; [|discriminate]. injection Hp as ->.
    rewrite bind_pair, Hopen. reflexivity. }
  split; [exact Ej|]. split; [exact Ec|].
  assert (Hb : batches (SessionOpen :: (trace (get_params file) ++ t)
                          ++ [SessionClose]) = []).
  { destruct (get_params_outcome file) as [-> _].
    cbn [batches]. rewrite !batches_app, batches_compression_report.
    simpl. rewrite app_nil_r.
    pose proof (file_handle_submits_nothing urlparse fetch (p_url p)
                  (p_compression p)) as Hq.
    rewrite Hopen in Hq. exact Hq. }
  rewrite Ej, Ec. split; exact Hb.
Qed.

Lemma readers_fail_on_open_witness :
  load_csv plain_urlparse (fun _ => None) line_tokenize file_people =
    ([SessionOpen; StreamOpen (SmartOpen (PathName "people.csv"));
      SessionClose],
     Raise TransportError).
Proof.
  refine (proj1 (proj2 (readers_fail_on_open plain_urlparse (fun _ => None)
                          line_tokenize (give_events [])
                          file_people
                          (resolved file_people (PyStr "people.csv")
                                    (PyStr "UNWIND $dict.rows AS row"))
                          [StreamOpen (SmartOpen (PathName "people.csv"))]
                          TransportError _ _)));
    vm_compute; reflexivity.
Defined.

(** [load_json] in terms of its loop, once the parameters are resolved
    and the stream is open. *)
Lemma load_json_run
      (urlparse : string -> parsed_url)
      (fetch : handle -> option (list string))
      (ijson_parse : list string -> stream (string * token))
      (file : filespec) (p : params) (h : handle) (lines : list string)
      (items : list pyval) (stop : option exn) :
  outcome (get_params file) = Ok p ->
  file_handle urlparse fetch (p_url p) (p_compression p) =
    ([StreamOpen h], Ok lines) ->
  ijson_items (ijson_decimal_as_float (ijson_parse lines)) "item" =
    (items, stop) ->
  batches (trace (load_json urlparse fetch ijson_parse file)) =
    batches (trace (json_loop p items stop 0 0 []))
    ++ match outcome (json_loop p items stop 0 0 []) with
       | Ok (_, rows) => flush rows
       | Raise _ => []
       end /\
  outcome (load_json urlparse fetch ijson_parse file) =
    match outcome (json_loop p items stop 0 0 []) with
    | Ok _ => Ok tt
    | Raise e => Raise e
    end.
Proof.
  intros Hp Hopen Hitems. unfold load_json.
  rewrite outcome_with_session, batches_with_session.
  destruct (get_params_outcome file) as [Ht _].
  destruct (get_params file) as [t0 [p0|e0]]; simpl in Hp; [|discriminate].
  injection Hp as ->. simpl in Ht. subst t0.
  rewrite bind_pair, Hopen, bind_pair, Hitems. cbn [fst snd].
  destruct (json_loop p items stop 0 0 []) as [t [[n rows]|e]];
    cbn [trace outcome fst snd].
  - rewrite bind_pair. cbn [trace outcome fst snd].
    rewrite !batches_app, batches_compression_report.
    destruct rows as [|x rows]; simpl; split; reflexivity.
  - unfold bind. cbn [trace outcome fst snd].
    rewrite !batches_app, batches_compression_report. simpl.
    rewrite app_nil_r. split; reflexivity.
Qed.

Section Json_loop_more.

Variables (p : params) (k : nat).
Hypothesis Hskip : p_skip_records p = PyInt (Z.of_nat k).

(** A [None] among the items ends the loop: what follows it, and the
    exception that ends the generator, are never reached. *)
Lemma json_loop_halts_at_none (pre : list pyval) :
  Forall (fun v => is_none v = false) pre ->
  forall (post : list pyval) (stop : option exn) (rec_num chunk_num : Z)
         (rows : list pyval),
    json_loop p (pre ++ PyNone :: post) stop rec_num chunk_num rows =
    json_loop p pre None rec_num chunk_num rows.
Proof.
  induction 1 as [|row pre Hrow _ IH]; intros post stop rec_num chunk_num rows.
  - reflexivity.
  - cbn [app json_loop]. rewrite Hrow.
    destruct (int_gt (rec_num + 1) (p_skip_records p)) as [[|]|e];
      [| |reflexivity].
    + rewrite !bind_lift_ok.
      destruct (int_eq _ _); rewrite IH; reflexivity.
    + rewrite !bind_lift_ok. apply IH.
Qed.

(** With a chunk size that no length ever equals, the loop submits
    nothing: it leaves with all the surviving items in [rows]. *)
Lemma json_loop_never_full (items : list pyval) :
  (forall n, 0 < n -> int_eq n (p_chunk_size p) = false) ->
  Forall (fun v => is_none v = false) items ->
  forall (r : nat) (chunk_num : Z) (rows : list pyval),
    json_loop p items None (Z.of_nat r) chunk_num rows =
      ([], Ok (chunk_num, rows ++ drop (k - r) items)).
Proof.
  intros Hnever. induction 1 as [|row items Hrow _ IH];
    intros r chunk_num rows.
  - rewrite drop_nil, app_nil_r. reflexivity.
  - cbn [json_loop]. rewrite Hrow, Hskip.
    replace (Z.of_nat r + 1) with (Z.of_nat (S r)) by lia.
    unfold int_gt. cbn [number_value]. rewrite bind_lift_ok.
    destruct (Z.ltb_spec (Z.of_nat k) (Z.of_nat (S r) * 1)) as [Hk|Hk].
    + rewrite Hnever by (rewrite length_app; simpl; lia).
      rewrite IH. replace (k - r)%nat with 0%nat by lia.
      replace (k - S r)%nat with 0%nat by lia.
      rewrite !drop_0, <- app_assoc. reflexivity.
    + rewrite IH. replace (k - r)%nat with (S (k - S r)) by lia.
      reflexivity.
Qed.

Variable c : nat.
Hypothesis Hchunk : p_chunk_size p = PyInt (Z.of_nat c).
Hypothesis Hc : (0 < c)%nat.

(** The loop, however the generator ends: every batch it submits is
    full, the batches and the rows it is left with are the rows it
    started from and the items past the first [k - r], and it ends as the
    generator does. *)
Lemma json_loop_invariant (items : list pyval) (stop : option exn) :
  Forall (fun v => is_none v = false) items ->
  forall (r : nat) (chunk_num : Z) (rows : list pyval),
    (length rows < c)%nat ->
    exists (rows' : list pyval),
      Forall (fun b => length b = c)
             (batches (trace (json_loop p items stop (Z.of_nat r) chunk_num rows))) /\
      concat (batches (trace (json_loop p items stop (Z.of_nat r) chunk_num rows)))
        ++ rows' = rows ++ drop (k - r) items /\
      (length rows' < c)%nat /\
      match stop with
      | None =>
          exists n', outcome (json_loop p items stop (Z.of_nat r) chunk_num rows)
                     = Ok (n', rows')
      | Some e =>
          outcome (json_loop p items stop (Z.of_nat r) chunk_num rows) = Raise e
      end.
Proof.
  induction 1 as [|row items Hrow _ IH]; intros r chunk_num rows Hrows.
  - exists rows. cbn [json_loop]. rewrite drop_nil, app_nil_r.
    destruct stop; simpl; repeat split; eauto.
  - cbn [json_loop]. rewrite Hrow, Hskip, Hchunk.
    replace (Z.of_nat r + 1) with (Z.of_nat (S r)) by lia.
    unfold int_gt, int_eq. cbn [number_value]. rewrite bind_lift_ok.
    destruct (Z.ltb_spec (Z.of_nat k) (Z.of_nat (S r) * 1)) as [Hk|Hk].
    + replace (k - r)%nat with 0%nat by lia. rewrite drop_0.
      destruct (Z.eqb_spec (Z.of_nat (length (rows ++ [row])) * 1)
                           (Z.of_nat c)) as [E|E].
      * destruct (IH (S r) (chunk_num + 1) [] Hc)
          as (rows' & Hfull & Hcat & Hlt & Hend).
        replace (k - S r)%nat with 0%nat in Hcat by lia.
        rewrite drop_0 in Hcat.
        exists rows'. rewrite !bind_emit. cbn [trace outcome fst snd batches].
        split; [constructor; [lia|exact Hfull]|].
        split; [simpl; rewrite <- !app_assoc; simpl in Hcat; rewrite Hcat;
                reflexivity|].
        split; [exact Hlt|exact Hend].
      * assert (Hlt : (length (rows ++ [row]) < c)%nat)
          by (rewrite length_app in *; simpl in *; lia).
        destruct (IH (S r) chunk_num (rows ++ [row]) Hlt)
          as (rows' & Hfull & Hcat & Hlt' & Hend).
        replace (k - S r)%nat with 0%nat in Hcat by lia.
        rewrite drop_0 in Hcat.
        exists rows'. split; [exact Hfull|].
        split; [rewrite Hcat, <- app_assoc; reflexivity|].
        split; [exact Hlt'|exact Hend].
    + destruct (IH (S r) chunk_num rows Hrows)
        as (rows' & Hfull & Hcat & Hlt & Hend).
      exists rows'. split; [exact Hfull|].
      split; [|split; [exact Hlt|exact Hend]].
      replace (k - r)%nat with (S (k - S r)) by lia. exact Hcat.
Qed.

End Json_loop_more.

(** A JSON stream that turns out malformed after the top-level elements
    [items] (none of them [null]): [load_json] raises the exception of the
    parser; every batch it has submitted by then is full, the batches hold
    the elements after the first [k] in their order, but for the last
    fewer than [c] of them, which are never submitted. *)
Theorem load_json_parse_error
        (urlparse : string -> parsed_url)
        (fetch : handle -> option (list string))
        (ijson_parse : list string -> stream (string * token))
        (file : filespec) (p : params) (k c : nat)
        (h : handle) (lines : list string) (items : list pyval) (e : exn) :
  outcome (get_params file) = Ok p ->
  p_skip_records p = PyInt (Z.of_nat k) ->
  p_chunk_size p = PyInt (Z.of_nat c) -> (1 <= c)%nat ->
  file_handle urlparse fetch (p_url p) (p_compression p) =
    ([StreamOpen h], Ok lines) ->
  ijson_items (ijson_decimal_as_float (ijson_parse lines)) "item" =
    (items, Some e) ->
  Forall (fun v => is_none v = false) items ->
  outcome (load_json urlparse fetch ijson_parse file) = Raise e /\
  Forall (fun b => length b = c)
         (batches (trace (load_json urlparse fetch ijson_parse file))) /\
  exists lost,
    (length lost < c)%nat /\
    concat (batches (trace (load_json urlparse fetch ijson_parse file)))
      ++ lost = drop k items.
Proof.
  intros Hp Hskip Hchunk Hc Hopen Hitems Hnone.
  destruct (load_json_run urlparse fetch ijson_parse file p h lines items
              (Some e) Hp Hopen Hitems) as [Hb Ho].
  destruct (json_loop_invariant p k Hskip c Hchunk Hc items (Some e) Hnone
              0 0 [] Hc) as (lost & Hfull & Hcat & Hlt & Hend).
  change (Z.of_nat 0) with 0 in *.
  rewrite Hend in Hb, Ho. rewrite app_nil_r in Hb. rewrite Hb, Ho.
  split; [reflexivity|]. split; [exact Hfull|].
  exists lost. split; [exact Hlt|].
  rewrite Hcat, Nat.sub_0_r. reflexivity.
Qed.

Lemma load_json_parse_error_witness :
  outcome (load_json plain_urlparse (serve [])
                     (give_events_then_fail events_three_objects)
                     file_json_two) = Raise JSONError /\
  Forall (fun b => length b = 2%nat)
         (batches (trace (load_json plain_urlparse (serve [])
                            (give_events_then_fail events_three_objects)
                            file_json_two))) /\
  exists lost,
    (length lost < 2)%nat /\
    concat (batches (trace (load_json plain_urlparse (serve [])
                              (give_events_then_fail events_three_objects)
                              file_json_two)))
      ++ lost = drop 0 three_records.
Proof.
  refine (load_json_parse_error plain_urlparse (serve [])
            (give_events_then_fail events_three_objects) file_json_two
            (Params (PyInt 0) (PyStr "none") (PyStr "data.json")
                    (PyStr "UNWIND $dict.rows AS row") (PyInt 2) (PyStr ","))
            0%nat 2%nat (SmartOpen (PathName "data.json")) []
            three_records JSONError _ _ _ _ _ _ _);
    try (vm_compute; reflexivity); try lia.
  repeat constructor.
Defined.

(** A [null] among the top-level elements ends the reading: with the
    elements [pre] before it (none of them [null]), [load_json] returns
    normally and its batches hold the elements of [pre] after the first
    [k]; what follows the [null] is never submitted, and an error of the
    parser past it is never raised. *)
Theorem load_json_stops_at_null
        (urlparse : string -> parsed_url)
        (fetch : handle -> option (list string))
        (ijson_parse : list string -> stream (string * token))
        (file : filespec) (p : params) (k c : nat)
        (h : handle) (lines : list string) (pre post : list pyval)
        (stop : option exn) :
  outcome (get_params file) = Ok p ->
  p_skip_records p = PyInt (Z.of_nat k) ->
  p_chunk_size p = PyInt (Z.of_nat c) -> (1 <= c)%nat ->
  file_handle urlparse fetch (p_url p) (p_compression p) =
    ([StreamOpen h], Ok lines) ->
  ijson_items (ijson_decimal_as_float (ijson_parse lines)) "item" =
    (pre ++ PyNone :: post, stop) ->
  Forall (fun v => is_none v = false) pre ->
  outcome (load_json urlparse fetch ijson_parse file) = Ok tt /\
  concat (batches (trace (load_json urlparse fetch ijson_parse file))) =
    drop k pre.
Proof.
  intros Hp Hskip Hchunk Hc Hopen Hitems Hnone.
  destruct (load_json_run urlparse fetch ijson_parse file p h lines
              (pre ++ PyNone :: post) stop Hp Hopen Hitems) as [Hb Ho].
  rewrite (json_loop_halts_at_none p pre Hnone) in Hb, Ho.
  destruct (json_loop_invariant p k Hskip c Hchunk Hc pre None Hnone
              0 0 [] Hc) as (rows' & _ & Hcat & _ & (n' & Hend)).
  change (Z.of_nat 0) with 0 in *.
  rewrite Hend in Hb, Ho. rewrite Hb, Ho. split; [reflexivity|].
  rewrite concat_app, Nat.sub_0_r in *. simpl in Hcat. rewrite <- Hcat.
  f_equal. destruct rows'; simpl; rewrite ?app_nil_r; reflexivity.
Qed.

Lemma load_json_stops_at_null_witness :
  outcome (load_json plain_urlparse (serve [])
                     (give_events events_with_null) file_json_two) = Ok tt /\
  concat (batches (trace (load_json plain_urlparse (serve [])
                            (give_events events_with_null) file_json_two))) =
    drop 0 [PyDict [("a", PyStr "1")]].
Proof.
  refine (load_json_stops_at_null plain_urlparse (serve [])
            (give_events events_with_null) file_json_two
            (Params (PyInt 0) (PyStr "none") (PyStr "data.json")
                    (PyStr "UNWIND $dict.rows AS row") (PyInt 2) (PyStr ","))
            0%nat 2%nat (SmartOpen (PathName "data.json")) []
            [PyDict [("a", PyStr "1")]] [PyDict [("a", PyStr "2")]] None
            _ _ _ _ _ _ _);
    try (vm_compute; reflexivity); try lia.
  repeat constructor.
Defined.

(** A chunk size that the length of [rows] never equals (a string, a
    negative number): [load_json] gathers every surviving element and
    submits them in one batch at the end, or none when there is no
    element to submit. *)
Theorem load_json_unbounded_batch
        (urlparse : string -> parsed_url)
        (fetch : handle -> option (list string))
        (ijson_parse : list string -> stream (string * token))
        (file : filespec) (p : params) (k : nat)
        (h : handle) (lines : list string) (items : list pyval) :
  outcome (get_params file) = Ok p ->
  p_skip_records p = PyInt (Z.of_nat k) ->
  (forall n, 0 < n -> int_eq n (p_chunk_size p) = false) ->
  file_handle urlparse fetch (p_url p) (p_compression p) =
    ([StreamOpen h], Ok lines) ->
  ijson_items (ijson_decimal_as_float (ijson_parse lines)) "item" =
    (items, None) ->
  Forall (fun v => is_none v = false) items ->
  outcome (load_json urlparse fetch ijson_parse file) = Ok tt /\
  batches (trace (load_json urlparse fetch ijson_parse file)) =
    flush (drop k items).
Proof.
  intros Hp Hskip Hnever Hopen Hitems Hnone.
  destruct (load_json_run urlparse fetch ijson_parse file p h lines items
              None Hp Hopen Hitems) as [Hb Ho].
  pose proof (json_loop_never_full p k Hskip items Hnever Hnone 0 0 []) as E.
  change (Z.of_nat 0) with 0 in E.
  rewrite E in Hb, Ho. rewrite Hb, Ho. rewrite Nat.sub_0_r.
  split; reflexivity.
Qed.

Lemma load_json_unbounded_batch_witness :
  outcome (load_json plain_urlparse (serve [])
                     (give_events events_three_objects)
                     file_json_text_chunk) = Ok tt /\
  batches (trace (load_json plain_urlparse (serve [])
                            (give_events events_three_objects)
                            file_json_text_chunk)) =
    flush (drop 0 three_records).
Proof.
  refine (load_json_unbounded_batch plain_urlparse (serve [])
            (give_events events_three_objects) file_json_text_chunk
            (Params (PyInt 0) (PyStr "none") (PyStr "data.json")
                    (PyStr "UNWIND $dict.rows AS row") (PyStr "2") (PyStr ","))
            0%nat (SmartOpen (PathName "data.json")) [] three_records
            _ _ _ _ _ _);
    try (vm_compute; reflexivity).
  repeat constructor.
Defined.

Lemma load_json_batch_sizes_witness :
  batch_sizes 2 (length (drop 1 three_records))
    (batches (trace (load_json plain_urlparse (serve [])
                       (give_events events_three_objects) file_json_skip))).
Proof.
  refine (load_json_batch_sizes plain_urlparse (serve [])
            (give_events events_three_objects) file_json_skip
            (Params (PyInt 1) (PyStr "none") (PyStr "data.json")
                    (PyStr "UNWIND $dict.rows AS row") (PyInt 2) (PyStr ","))
            1%nat 2%nat (SmartOpen (PathName "data.json")) [] three_records
            _ _ _ _ _ _ _);
    try (vm_compute; reflexivity); try lia.
  repeat constructor.
Defined.

Lemma load_csv_batch_sizes_witness :
  batch_sizes 2 (length [["2"; "Bob"]; ["3"; "Carol"]])
    (batches (trace (load_csv plain_urlparse (serve lines_people)
                              line_tokenize file_csv_skip))).
Proof.
  refine (load_csv_batch_sizes plain_urlparse (serve lines_people)
            line_tokenize file_csv_skip
            (Params (PyInt 1) (PyStr "none") (PyStr "people.csv")
                    (PyStr "UNWIND $dict.rows AS row") (PyInt 2) (PyStr ","))
            1%nat 2%nat "," (SmartOpen (PathName "people.csv"))
            "id,name" ["1,Alice"; "2,Bob"; "3,Carol"]
            [["2"; "Bob"]; ["3"; "Carol"]]
            _ _ _ _ _ _ _ _ _ _ _ _);
    try (vm_compute; reflexivity); try lia; try discriminate.
  vm_compute. data_rows_by_evaluation.
Defined.

(* ===================================================================== *)
(** ** Further properties: records and events                              *)
(* ===================================================================== *)




(** [ijson_decimal_as_float] keeps the number of events, the prefix and
    the name of each event, the value of each event that is not a number
    and the way the stream ends; the value of a number event becomes the
    text of the number. *)
Theorem ijson_decimal_as_float_events (events : stream (string * token)) :
  snd (ijson_decimal_as_float events) = snd events /\
  length (fst (ijson_decimal_as_float events)) = length (fst events) /\
  forall (i : nat) (prefix : string) (tok : token),
    fst events !! i = Some (prefix, tok) ->
    fst (ijson_decimal_as_float events) !! i =
      Some (prefix, event_name tok,
            match tok with
            | TNumber n => PyStr (str_number n)
            | _ => token_value tok
            end).
Proof.
  destruct events as [evs stop]. simpl.
  split; [reflexivity|]. split; [apply length_map|].
  induction evs as [|[prefix' tok'] evs IH]; intros [|i] prefix tok H;
    simpl in *; try discriminate.
  - injection H as -> ->. destruct tok; reflexivity.
  - apply IH. exact H.
Qed.

(* ===================================================================== *)
(** ** Further properties: the loop over the files                         *)
(* ===================================================================== *)




Section Main_files_facts.

Variable urlparse : string -> parsed_url.
Variable fetch : handle -> option (list string).
Variable tokenize : tokenizer.
Variable ijson_parse : list string -> stream (string * token).
Variable basepath : option pyval.

Let files := main_files urlparse fetch tokenize ijson_parse basepath.


End Main_files_facts.


(* ===================================================================== *)
(** ** Further properties: the entry point                                 *)
(* ===================================================================== *)

Lemma pbind_pret_l {A B} (a : A) (k : A -> P B) : pbind (pret a) k = k a.
Proof. unfold pbind, pret. destruct (k a). reflexivity. Qed.

Lemma pbind_pair {A B} (t : list run_effect) (a : A) (k : A -> P B) :
  pbind (t, Ok a) k = (t ++ fst (k a), snd (k a)).
Proof. unfold pbind. destruct (k a). reflexivity. Qed.




Section Main_facts.

Variable urlparse : string -> parsed_url.
Variable fetch : handle -> option (list string).
Variable tokenize : tokenizer.
Variable ijson_parse : list string -> stream (string * token).

Variables (cfg : config) (uri user password : pyval).
Hypothesis Huri : cfg_server_uri cfg = Some uri.
Hypothesis Huser : cfg_admin_user cfg = Some user.
Hypothesis Hpass : cfg_admin_pass cfg = Some password.

(** [main] up to the point where the list of files is read. *)
Lemma main_after_pre_ingest :
  main urlparse fetch tokenize ijson_parse cfg =
    pbind (DriverOpen uri user password :: fst (pre_ingest cfg),
           snd (pre_ingest cfg))
      (fun _ =>
         (let* file_list :=
            match cfg_files cfg with
            | Some l => pret l
            | None => praise (KeyError "files")
            end in
          let* uri := config_item (cfg_server_uri cfg) "server_uri" in
          pemit (Progress "Using Server: " uri) ;;
          engine (main_files urlparse fetch tokenize ijson_parse
                             (cfg_basepath cfg) file_list) ;;
          post_ingest cfg ;;
          close)%run).
Proof.
  unfold main, local_server. rewrite Huri, Huser, Hpass.
  unfold config_item. rewrite !pbind_pret_l. unfold pemit at 1.
  rewrite pbind_pair.
  destruct (pre_ingest cfg) as [t [[]|e]]; cbn [fst snd].
  - rewrite !pbind_pair. cbn [app fst snd]. reflexivity.
  - reflexivity.
Qed.

Variable file_list : list filespec.
Hypothesis Hfiles : cfg_files cfg = Some file_list.
Hypothesis Hpre : snd (pre_ingest cfg) = Ok tt.

Lemma main_run :
  main urlparse fetch tokenize ijson_parse cfg =
    match outcome (main_files urlparse fetch tokenize ijson_parse
                              (cfg_basepath cfg) file_list) with
    | Raise e =>
        (DriverOpen uri user password :: fst (pre_ingest cfg)
           ++ Progress "Using Server: " uri
           :: map Engine (trace (main_files urlparse fetch tokenize ijson_parse
                                            (cfg_basepath cfg) file_list)),
         Raise e)
    | Ok _ =>
        (DriverOpen uri user password :: fst (pre_ingest cfg)
           ++ Progress "Using Server: " uri
           :: map Engine (trace (main_files urlparse fetch tokenize ijson_parse
                                            (cfg_basepath cfg) file_list))
           ++ fst (post_ingest cfg)
           ++ match snd (post_ingest cfg) with
              | Ok _ => [DriverClose]
              | Raise _ => []
              end,
         snd (post_ingest cfg))
    end.
Proof.
  rewrite main_after_pre_ingest, Hpre, pbind_pair, Hfiles, pbind_pret_l.
  rewrite Huri. unfold config_item. rewrite pbind_pret_l.
  unfold pemit, engine, close, trace, outcome.
  rewrite pbind_pair.
  destruct (main_files urlparse fetch tokenize ijson_parse
                       (cfg_basepath cfg) file_list) as [t [[]|e]]; simpl.
  - destruct (post_ingest cfg) as [t' [[]|e']]; simpl;
      rewrite ?app_nil_r; reflexivity.
  - reflexivity.
Qed.

End Main_facts.

(** [main] catches nothing.  With the three keys of the connection and
    [files] configured and a pre-ingest that returns: when the loading
    of a file raises, [main] raises the same exception, and all it has
    done is to open the driver, run the pre-ingest, print the server line
    and load the files up to the failing one: the files after it are not
    read, no post-ingest statement is run and the driver is not closed. *)
Theorem main_stops_at_failing_file
        (urlparse : string -> parsed_url)
        (fetch : handle -> option (list string))
        (tokenize : tokenizer)
        (ijson_parse : list string -> stream (string * token))
        (cfg : config) (uri user password : pyval)
        (file_list : list filespec) (e : exn) :
  cfg_server_uri cfg = Some uri ->
  cfg_admin_user cfg = Some user ->
  cfg_admin_pass cfg = Some password ->
  cfg_files cfg = Some file_list ->
  snd (pre_ingest cfg) = Ok tt ->
  outcome (main_files urlparse fetch tokenize ijson_parse
                      (cfg_basepath cfg) file_list) = Raise e ->
  main urlparse fetch tokenize ijson_parse cfg =
    (DriverOpen uri user password :: fst (pre_ingest cfg)
       ++ Progress "Using Server: " uri
       :: map Engine (trace (main_files urlparse fetch tokenize ijson_parse
                                        (cfg_basepath cfg) file_list)),
     Raise e).
Proof.
  intros Huri Huser Hpass Hfiles Hpre He.
  rewrite (main_run urlparse fetch tokenize ijson_parse cfg uri user
             password Huri Huser Hpass file_list Hfiles Hpre), He.
  reflexivity.
Qed.

Lemma main_stops_at_failing_file_witness :
  main plain_urlparse (serve lines_people) line_tokenize (give_events [])
       (config_sample [file_numeric_url; file_people]) =
    ([DriverOpen (PyStr "bolt://localhost:7687") (PyStr "neo4j")
                 (PyStr "secret");
      Progress "Starting pre-ingest" (PyStr "");
      Engine SessionOpen;
      Progress "Running:" (PyStr "CREATE INDEX ON :Person(id)");
      Statement (PyStr "CREATE INDEX ON :Person(id)");
      Engine SessionClose;
      Progress "Finished pre-ingest" (PyStr "");
      Progress "Using Server: " (PyStr "bolt://localhost:7687")],
     Raise TypeError).
Proof.
  refine (main_stops_at_failing_file plain_urlparse (serve lines_people)
            line_tokenize (give_events [])
            (config_sample [file_numeric_url; file_people])
            (PyStr "bolt://localhost:7687") (PyStr "neo4j") (PyStr "secret")
            [file_numeric_url; file_people] TypeError _ _ _ _ _ _);
    vm_compute; reflexivity.
Defined.

(** The order of a run that succeeds: the driver is opened, the
    pre-ingest statements are run, the server line is printed, the files
    are loaded in the order of the list, the post-ingest statements are
    run, and the driver is closed last. *)
Theorem main_completes
        (urlparse : string -> parsed_url)
        (fetch : handle -> option (list string))
        (tokenize : tokenizer)
        (ijson_parse : list string -> stream (string * token))
        (cfg : config) (uri user password : pyval)
        (file_list : list filespec) :
  cfg_server_uri cfg = Some uri ->
  cfg_admin_user cfg = Some user ->
  cfg_admin_pass cfg = Some password ->
  cfg_files cfg = Some file_list ->
  snd (pre_ingest cfg) = Ok tt ->
  outcome (main_files urlparse fetch tokenize ijson_parse
                      (cfg_basepath cfg) file_list) = Ok tt ->
  snd (post_ingest cfg) = Ok tt ->
  main urlparse fetch tokenize ijson_parse cfg =
    (DriverOpen uri user password :: fst (pre_ingest cfg)
       ++ Progress "Using Server: " uri
       :: map Engine (trace (main_files urlparse fetch tokenize ijson_parse
                                        (cfg_basepath cfg) file_list))
       ++ fst (post_ingest cfg) ++ [DriverClose],
     Ok tt).
Proof.
  intros Huri Huser Hpass Hfiles Hpre Hok Hpost.
  rewrite (main_run urlparse fetch tokenize ijson_parse cfg uri user
             password Huri Huser Hpass file_list Hfiles Hpre), Hok, Hpost.
  reflexivity.
Qed.

Lemma main_completes_witness :
  main plain_urlparse (serve lines_people) line_tokenize (give_events [])
       (config_sample [file_skipped]) =
    ([DriverOpen (PyStr "bolt://localhost:7687") (PyStr "neo4j")
                 (PyStr "secret");
      Progress "Starting pre-ingest" (PyStr "");
      Engine SessionOpen;
      Progress "Running:" (PyStr "CREATE INDEX ON :Person(id)");
      Statement (PyStr "CREATE INDEX ON :Person(id)");
      Engine SessionClose;
      Progress "Finished pre-ingest" (PyStr "");
      Progress "Using Server: " (PyStr "bolt://localhost:7687");
      Engine (Print (MsgSkipping (PyStr "people.csv")));
      Progress "Starting post-ingest" (PyStr "");
      Engine SessionOpen;
      Progress "Running:" (PyStr "MATCH (n:Tmp) DELETE n");
      Statement (PyStr "MATCH (n:Tmp) DELETE n");
      Engine SessionClose;
      Progress "Finished post-ingest" (PyStr "");
      DriverClose],
     Ok tt).
Proof.
  refine (main_completes plain_urlparse (serve lines_people)
            line_tokenize (give_events []) (config_sample [file_skipped])
            (PyStr "bolt://localhost:7687") (PyStr "neo4j") (PyStr "secret")
            [file_skipped] _ _ _ _ _ _ _);
    vm_compute; reflexivity.
Defined.

(** Keys that the configuration lacks.  Without [server_uri] (or
    [admin_user], [admin_pass]) [main] raises [KeyError] before it does
    anything.  Without [files] it raises [KeyError] only after the driver
    is opened and the pre-ingest has run; when the pre-ingest raises, no
    file is read. *)
Theorem main_missing_keys
        (urlparse : string -> parsed_url)
        (fetch : handle -> option (list string))
        (tokenize : tokenizer)
        (ijson_parse : list string -> stream (string * token))
        (cfg : config) :
  (cfg_server_uri cfg = None ->
     main urlparse fetch tokenize ijson_parse cfg =
       ([], Raise (KeyError "server_uri"))) /\
  (forall uri, cfg_server_uri cfg = Some uri -> cfg_admin_user cfg = None ->
     main urlparse fetch tokenize ijson_parse cfg =
       ([], Raise (KeyError "admin_user"))) /\
  (forall uri user, cfg_server_uri cfg = Some uri ->
     cfg_admin_user cfg = Some user -> cfg_admin_pass cfg = None ->
     main urlparse fetch tokenize ijson_parse cfg =
       ([], Raise (KeyError "admin_pass"))) /\
  (forall uri user password,
     cfg_server_uri cfg = Some uri -> cfg_admin_user cfg = Some user ->
     cfg_admin_pass cfg = Some password ->
     (forall e, snd (pre_ingest cfg) = Raise e ->
        main urlparse fetch tokenize ijson_parse cfg =
          (DriverOpen uri user password :: fst (pre_ingest cfg), Raise e)) /\
     (snd (pre_ingest cfg) = Ok tt -> cfg_files cfg = None ->
        main urlparse fetch tokenize ijson_parse cfg =
          (DriverOpen uri user password :: fst (pre_ingest cfg),
           Raise (KeyError "files")))).
Proof.
  split; [|split; [|split]].
  - intros H. unfold main, local_server. rewrite H. reflexivity.
  - intros uri Hu H. unfold main, local_server. rewrite Hu, H. reflexivity.
  - intros uri user Hu Hus H. unfold main, local_server.
    rewrite Hu, Hus, H. reflexivity.
  - intros uri user password Hu Hus Hp.
    rewrite (main_after_pre_ingest urlparse fetch tokenize ijson_parse cfg
               uri user password Hu Hus Hp).
    split.
    + intros e He. rewrite He. reflexivity.
    + intros Hok Hfiles. rewrite Hok, pbind_pair, Hfiles. simpl.
      rewrite app_nil_r. reflexivity.
Qed.

Lemma main_missing_keys_witness :
  main plain_urlparse (serve lines_people) line_tokenize (give_events [])
       config_without_files =
    ([DriverOpen (PyStr "bolt://localhost:7687") (PyStr "neo4j")
                 (PyStr "secret");
      Progress "Starting pre-ingest" (PyStr "");
      Engine SessionOpen;
      Progress "Running:" (PyStr "CREATE INDEX ON :Person(id)");
      Statement (PyStr "CREATE INDEX ON :Person(id)");
      Engine SessionClose;
      Progress "Finished pre-ingest" (PyStr "")],
     Raise (KeyError "files")).
Proof.
  refine (proj2 (proj2 (proj2 (proj2 (main_missing_keys plain_urlparse
            (serve lines_people) line_tokenize (give_events [])
            config_without_files))) (PyStr "bolt://localhost:7687")
            (PyStr "neo4j") (PyStr "secret") _ _ _) _ _);
    vm_compute; reflexivity.
Defined.

(* ===================================================================== *)
(** ** Further properties: sessions and streams                            *)
(* ===================================================================== *)

Lemma trace_bind {A B} (m : M A) (k : A -> M B) :
  trace (bind m k) =
    trace m ++ match outcome m with
               | Ok a => trace (k a)
               | Raise _ => []
               end.
Proof.
  destruct m as [t [a|e]]; simpl.
  - unfold trace. destruct (k a). reflexivity.
  - rewrite app_nil_r. reflexivity.
Qed.

Lemma compression_report_prints (c : pyval) :
  Forall (fun e => is_print e = true) (compression_report c).
Proof.
  unfold compression_report. destruct (supported_compression c);
    repeat constructor.
Qed.

Lemma json_loop_store_only (p : params) (items : list pyval)
      (stop : option exn) :
  forall (rec_num chunk_num : Z) (rows : list pyval),
    Forall (fun e => store_only e = true)
           (trace (json_loop p items stop rec_num chunk_num rows)).
Proof.
  induction items as [|row items IH]; intros rec_num chunk_num rows;
    cbn [json_loop].
  - destruct stop; constructor.
  - destruct (is_none row); [constructor|].
    destruct (int_gt (rec_num + 1) (p_skip_records p)) as [[|]|e];
      [| |constructor].
    + rewrite bind_lift_ok. destruct (int_eq _ _); [|apply IH].
      rewrite !bind_emit. cbn [trace fst].
      constructor; [reflexivity|]. constructor; [reflexivity|]. apply IH.
    + rewrite bind_lift_ok. apply IH.
Qed.

Lemma csv_loop_store_only (p : params) (row_chunks : list frame)
      (stop : option exn) :
  Forall (fun e => store_only e = true) (trace (csv_loop p row_chunks stop)).
Proof.
  induction row_chunks as [|rows cs IH]; cbn [csv_loop].
  - destruct stop; constructor.
  - rewrite bind_emit. constructor; [reflexivity|exact IH].
Qed.

Section Session_facts.

Variable urlparse : string -> parsed_url.
Variable fetch : handle -> option (list string).
Variable tokenize : tokenizer.
Variable ijson_parse : list string -> stream (string * token).

(** The shape of the trace of a reader, however it ends: the session is
    opened first and closed last; in between come lines printed, then at
    most one opening of a stream, and only after it the queries.  No
    query is run before the stream is open, no second stream is opened,
    and no session is left open. *)
Theorem readers_session_discipline (file : filespec) :
  (exists pre mid,
      trace (load_json urlparse fetch ijson_parse file) =
        SessionOpen :: pre ++ mid ++ [SessionClose] /\
      Forall (fun e => is_print e = true) pre /\
      (mid = [] \/
       exists h rest, mid = StreamOpen h :: rest /\
                      Forall (fun e => store_only e = true) rest)) /\
  (exists pre mid,
      trace (load_csv urlparse fetch tokenize file) =
        SessionOpen :: pre ++ mid ++ [SessionClose] /\
      Forall (fun e => is_print e = true) pre /\
      (mid = [] \/
       exists h rest, mid = StreamOpen h :: rest /\
                      Forall (fun e => store_only e = true) rest)).
Proof.
  destruct (get_params_outcome file) as [Ht _].
  split.
  - unfold load_json. rewrite trace_with_session, trace_bind, Ht.
    exists (compression_report
              (py_or (dict_get file "compression") (PyStr "none"))).
    eexists. split; [rewrite <- app_assoc; reflexivity|].
    split; [apply compression_report_prints|].
    destruct (outcome (get_params file)) as [p|e]; [|left; reflexivity].
    rewrite trace_bind.
    destruct (file_handle_trace urlparse fetch (p_url p) (p_compression p))
      as [(e & ->)|(h & r & ->)]; [left; reflexivity|].
    right. exists h. eexists. split; [reflexivity|].
    destruct r as [lines|e]; cbn [outcome snd]; [|constructor].
    rewrite trace_bind. apply Forall_app. split.
    + apply json_loop_store_only.
    + destruct (outcome (json_loop _ _ _ _ _ _)) as [[n rows]|e];
        [|constructor].
      destruct (0 <? length rows)%nat; [|constructor].
      rewrite !bind_emit. repeat constructor.
  - unfold load_csv. rewrite trace_with_session, trace_bind, Ht.
    exists (compression_report
              (py_or (dict_get file "compression") (PyStr "none"))).
    eexists. split; [rewrite <- app_assoc; reflexivity|].
    split; [apply compression_report_prints|].
    destruct (outcome (get_params file)) as [p|e]; [|left; reflexivity].
    rewrite trace_bind.
    destruct (file_handle_trace urlparse fetch (p_url p) (p_compression p))
      as [(e & ->)|(h & r & ->)]; [left; reflexivity|].
    right. exists h. eexists. split; [reflexivity|].
    destruct r as [lines|e]; cbn [outcome snd]; [|constructor].
    rewrite trace_bind.
    destruct (p_field_sep p); cbn [as_str raise ret trace outcome fst snd app];
      try constructor.
    rewrite trace_bind.
    destruct (read_csv _ _ _ _ _ _) as [[row_chunks stop]|e];
      cbn [lift trace outcome fst snd app]; [|constructor].
    apply csv_loop_store_only.
Qed.

End Session_facts.

(* ===================================================================== *)
(** ** Further properties: keys, base path, a count that is no number      *)
(* ===================================================================== *)

(** [get_params] reads six keys of the FileSpec and no other: an entry
    under any other key ([type], [skip_file], a misspelt option) changes
    neither what it returns nor what it prints. *)
Theorem get_params_reads_six_keys (file : filespec) (k : string) (v : pyval) :
  k <> "skip_records" -> k <> "compression" -> k <> "url" -> k <> "cql" ->
  k <> "chunk_size" -> k <> "field_separator" ->
  get_params (<[k := v]> file) = get_params file.
Proof.
  intros H1 H2 H3 H4 H5 H6. unfold get_params, dict_get, dict_item.
  rewrite !lookup_insert_ne by assumption. reflexivity.
Qed.

Lemma get_params_reads_six_keys_witness :
  get_params (<["chunksize" := PyInt 5]> file_people) = get_params file_people.
Proof.
  apply get_params_reads_six_keys; discriminate.
Defined.

(** With a [basepath] that is a string, a file whose url is a string is
    loaded under the url [basepath + url], and the loop goes on with the
    same base path; a file without [url] makes the loop raise [KeyError]
    before anything is done for it, also when the file is to be
    skipped. *)
Theorem main_files_basepath
        (urlparse : string -> parsed_url)
        (fetch : handle -> option (list string))
        (tokenize : tokenizer)
        (ijson_parse : list string -> stream (string * token))
        (base : string) (file : filespec) (rest : list filespec) :
  (forall u, file !! "url" = Some (PyStr u) ->
     main_files urlparse fetch tokenize ijson_parse (Some (PyStr base))
                (file :: rest) =
       (server_load_file urlparse fetch tokenize ijson_parse
                         (<["url" := PyStr (base +:+ u)]> file) ;;
        main_files urlparse fetch tokenize ijson_parse (Some (PyStr base))
                   rest)) /\
  (file !! "url" = None ->
     main_files urlparse fetch tokenize ijson_parse (Some (PyStr base))
                (file :: rest) =
       ([], Raise (KeyError "url"))).
Proof.
  split.
  - intros u Hu. cbn [main_files]. unfold dict_item. rewrite Hu.
    rewrite bind_ret_l. cbn [py_add]. rewrite !bind_ret_l. reflexivity.
  - intros Hu. cbn [main_files]. unfold dict_item. rewrite Hu. reflexivity.
Qed.

Lemma main_files_basepath_witness :
  main_files plain_urlparse (serve lines_people) line_tokenize
             (give_events []) (Some (PyStr "/data/")) [file_skipped] =
    ([Print (MsgSkipping (PyStr "/data/people.csv"))], Ok tt).
Proof.
  rewrite (proj1 (main_files_basepath plain_urlparse (serve lines_people)
                    line_tokenize (give_events []) "/data/" file_skipped [])
                 "people.csv" ltac:(vm_compute; reflexivity)).
  vm_compute. reflexivity.
Defined.

(** A [skip_records] that is a string: [load_json] raises [TypeError] at
    the first top-level element, once the stream is open, and submits
    nothing. *)
Theorem load_json_skip_records_text
        (urlparse : string -> parsed_url)
        (fetch : handle -> option (list string))
        (ijson_parse : list string -> stream (string * token))
        (file : filespec) (p : params) (s : string)
        (h : handle) (lines : list string) (row : pyval)
        (items : list pyval) (stop : option exn) :
  outcome (get_params file) = Ok p ->
  p_skip_records p = PyStr s ->
  file_handle urlparse fetch (p_url p) (p_compression p) =
    ([StreamOpen h], Ok lines) ->
  ijson_items (ijson_decimal_as_float (ijson_parse lines)) "item" =
    (row :: items, stop) ->
  is_none row = false ->
  outcome (load_json urlparse fetch ijson_parse file) = Raise TypeError /\
  batches (trace (load_json urlparse fetch ijson_parse file)) = [].
Proof.
  intros Hp Hskip Hopen Hitems Hrow.
  destruct (load_json_run urlparse fetch ijson_parse file p h lines
              (row :: items) stop Hp Hopen Hitems) as [Hb Ho].
  assert (E : json_loop p (row :: items) stop 0 0 [] = ([], Raise TypeError)).
  { cbn [json_loop]. rewrite Hrow, Hskip. reflexivity. }
  rewrite E in Hb, Ho. rewrite Hb, Ho. split; reflexivity.
Qed.

Lemma load_json_skip_records_text_witness :
  outcome (load_json plain_urlparse (serve [])
                     (give_events events_one_object) file_json_text_skip) =
    Raise TypeError /\
  batches (trace (load_json plain_urlparse (serve [])
                            (give_events events_one_object)
                            file_json_text_skip)) = [].
Proof.
  refine (load_json_skip_records_text plain_urlparse (serve [])
            (give_events events_one_object) file_json_text_skip
            (Params (PyStr "1") (PyStr "none") (PyStr "data.json")
                    (PyStr "UNWIND $dict.rows AS row") (PyInt 1000) (PyStr ","))
            "1" (SmartOpen (PathName "data.json")) []
            (PyDict [("a", PyStr "1")]) [] None _ _ _ _ _);
    vm_compute; reflexivity.
Defined.
